(** * Washington Climate-Fire Risk dashboard: the data pipeline of
    [streamlit_dashboard.py], embedded as pure functions over lists.

    The script is a single top-to-bottom pass: three loaded tables
    ([df], [geojson], [fema_data]), the sidebar values, then the filter,
    the metrics row, the folium map (choropleth, marker cluster, county
    info markers), the two [value_counts] charts and the ranking table.
    Every stage below keeps the name the script gives it. *)

From Stdlib Require Import QArith_base.
From stdpp Require Import base decidable numbers list strings sorting pretty gmap.

Local Open Scope string_scope.
Local Open Scope list_scope.
Local Open Scope Z_scope.

(** ** Data model *)

(** A pandas [Timestamp], as far as the script looks at it: the calendar
    fields ([.dt.year], [strftime]) and the chronological order used by
    [sort_values]. *)
Record Timestamp := mkTimestamp {
  year : Z;
  month : Z;
  day : Z;
  time_ns : Z
}.

(** One row of [data/WA_Climate_Fire_Dashboard_Data.csv].  [county_fips]
    holds the integer the script obtains with [int(row['county_fips'])];
    the two float columns are exact rationals since no arithmetic is
    performed on them here. *)
Record CountyRow := mkCountyRow {
  county_fips : Z;
  County : string;
  population : Z;
  population_at_risk : Z;
  wui_exposure_pct : Q;
  climate_fire_risk_score : Q;
  risk_category : string;
  climate_trend : string
}.

(** One row of [data/FEMA_Disasters_Geocoded.csv]; [None] in [lat] or
    [lon] is pandas' missing value (what [dropna] removes). *)
Record DisasterRow := mkDisasterRow {
  fema_County : string;
  declarationTitle : string;
  declarationDate : Timestamp;
  disasterNumber : Z;
  lat : option Q;
  lon : option Q
}.

(** The [properties] object of one GeoJSON feature. *)
Record Feature := mkFeature {
  GEOID : string;
  INTPTLAT : option Q;
  INTPTLON : option Q
}.

(** The values read from the sidebar widgets. *)
Record Sidebar := mkSidebar {
  selected_risk : string;
  selected_trend : string;
  min_population : Z;
  show_fema_markers : bool;
  fema_year_range : Z * Z
}.

#[global] Instance Timestamp_eq_dec : EqDecision Timestamp.
Proof. solve_decision. Defined.
#[global] Instance Q_eq_dec : EqDecision Q.
Proof. solve_decision. Defined.
#[global] Instance CountyRow_eq_dec : EqDecision CountyRow.
Proof. solve_decision. Defined.
#[global] Instance DisasterRow_eq_dec : EqDecision DisasterRow.
Proof. solve_decision. Defined.
#[global] Instance Feature_eq_dec : EqDecision Feature.
Proof. solve_decision. Defined.

(** ** Apply filters (script lines 127-133) *)

Definition filtered_df (df : list CountyRow) (sb : Sidebar) : list CountyRow :=
  let filtered := df in
  let filtered :=
    if decide (selected_risk sb ≠ "All")
    then filter (λ r, risk_category r = selected_risk sb) filtered
    else filtered in
  let filtered :=
    if decide (selected_trend sb ≠ "All")
    then filter (λ r, climate_trend r = selected_trend sb) filtered
    else filtered in
  filter (λ r, min_population sb ≤ population r) filtered.

(** The three predicates of the filter, as one conjunction. *)
Definition passes (sb : Sidebar) (r : CountyRow) : Prop :=
  (selected_risk sb ≠ "All" → risk_category r = selected_risk sb) ∧
  (selected_trend sb ≠ "All" → climate_trend r = selected_trend sb) ∧
  min_population sb ≤ population r.

#[global] Instance passes_dec sb r : Decision (passes sb r).
Proof. unfold passes. apply _. Defined.

(** ** Choropleth colour scheme (script lines 204-216) *)

Definition color_style (selected_trend selected_risk : string) : string * Q :=
  if decide (selected_trend = "Warming & Drying") then ("Reds", Qmake 8 10)
  else if decide (selected_trend = "Stable") then ("Greens", Qmake 6 10)
  else if decide (selected_risk = "Low") then ("Greens", Qmake 6 10)
  else ("YlOrRd", Qmake 7 10).

Definition color_scheme (sb : Sidebar) : string :=
  (color_style (selected_trend sb) (selected_risk sb)).1.
Definition fill_opacity (sb : Sidebar) : Q :=
  (color_style (selected_trend sb) (selected_risk sb)).2.

(** ** pandas' [sort_values] *)

(** [sort_values] is called with its default [kind='quicksort'], for which
    pandas promises a sorted rearrangement of the rows and nothing about
    the relative order of rows with equal keys.  The script is therefore
    embedded over any sorting routine with that contract. *)
Class Sorter := {
  sort_values : ∀ {A} (R : relation A) `{!RelDecision R}, list A → list A;
  sort_values_Permutation :
    ∀ {A} (R : relation A) `{!RelDecision R} (l : list A),
      sort_values R l ≡ₚ l;
  sort_values_StronglySorted :
    ∀ {A} (R : relation A) `{!RelDecision R},
      Total R → Transitive R → ∀ l : list A, StronglySorted R (sort_values R l)
}.

(** [DataFrame.head(n)] for a non-negative [n]. *)
Definition df_head {A} (n : nat) (l : list A) : list A := take n l.

(** Chronological order of timestamps. *)
Definition ts_le (a b : Timestamp) : Prop :=
  year a < year b ∨ (year a = year b ∧
  (month a < month b ∨ (month a = month b ∧
  (day a < day b ∨ (day a = day b ∧ time_ns a ≤ time_ns b))))).

#[global] Instance ts_le_dec : RelDecision ts_le.
Proof. intros a b. unfold ts_le. apply _. Defined.

(** The row order requested by
    [sort_values('declarationDate', ascending=False)]. *)
Definition date_desc (a b : DisasterRow) : Prop :=
  ts_le (declarationDate b) (declarationDate a).

#[global] Instance date_desc_dec : RelDecision date_desc.
Proof. intros a b. unfold date_desc. apply _. Defined.

(** ** [strftime] and [str.join] *)

Definition pad2 (n : Z) : string :=
  if decide (n < 10) then "0" +:+ pretty n else pretty n.

(** [strftime('%Y')]; a pandas timestamp has a four-digit year. *)
Definition strftime_Y (t : Timestamp) : string := pretty (year t).

(** [strftime('%Y-%m-%d')]. *)
Definition strftime_Ymd (t : Timestamp) : string :=
  pretty (year t) +:+ "-" +:+ pad2 (month t) +:+ "-" +:+ pad2 (day t).

Definition join (sep : string) (l : list string) : string := String.concat sep l.

(** ** The folium map *)

(** Payload of a marker of the "FEMA Disasters" cluster (lines 246-266). *)
Record DisasterMarker := mkDisasterMarker {
  dm_location : option Q * option Q;
  dm_title : string;
  dm_county : string;
  dm_date : string;
  dm_number : Z;
  dm_tooltip : string;
  dm_icon : string * string
}.

(** Payload of a county info marker (lines 286-315).  The numeric values
    are carried as they are; their decimal rendering in the HTML is left
    to the template. *)
Record CountyMarker := mkCountyMarker {
  cm_location : Q * Q;
  cm_County : string;
  cm_risk_score : Q;
  cm_risk_category : string;
  cm_climate_trend : string;
  fema_count_county : nat;
  cm_population : Z;
  cm_population_at_risk : Z;
  cm_wui_exposure_pct : Q;
  fires_list : string;
  cm_icon_color : string
}.

(** The arguments the script hands to [folium.Choropleth]. *)
Record Choropleth := mkChoropleth {
  geo_data : list Feature;
  data : list (Z * Q);
  key_on : string;
  fill_color : string;
  ch_fill_opacity : Q;
  nan_fill_color : string
}.

(** What is added to the map [m], in the order of the [add_to] calls. *)
Inductive MapChild :=
  | ChoroplethLayer (c : Choropleth)
  | MarkerCluster (markers : list DisasterMarker)
  | InfoMarker (c : CountyMarker)
  | LayerControl.

(** *** FEMA disaster markers (lines 232-266) *)

Definition in_year_range (yr : Z * Z) (d : DisasterRow) : Prop :=
  yr.1 ≤ year (declarationDate d) ∧ year (declarationDate d) ≤ yr.2.

Definition has_coordinates (d : DisasterRow) : Prop :=
  is_Some (lat d) ∧ is_Some (lon d).

#[global] Instance in_year_range_dec yr d : Decision (in_year_range yr d).
Proof. unfold in_year_range. apply _. Defined.
#[global] Instance has_coordinates_dec d : Decision (has_coordinates d).
Proof. unfold has_coordinates. apply _. Defined.

(** The year filter followed by [dropna(subset=['lat', 'lon'])]. *)
Definition fema_filtered (fema_data : list DisasterRow) (yr : Z * Z)
    : list DisasterRow :=
  filter has_coordinates (filter (in_year_range yr) fema_data).

Definition disaster_marker (row : DisasterRow) : DisasterMarker :=
  {| dm_location := (lat row, lon row);
     dm_title := declarationTitle row;
     dm_county := fema_County row;
     dm_date := strftime_Ymd (declarationDate row);
     dm_number := disasterNumber row;
     dm_tooltip := declarationTitle row;
     dm_icon := ("red", "warning-sign") |}.

Definition add_fema_markers (fema_data : option (list DisasterRow))
    (sb : Sidebar) (m : list MapChild) : list MapChild :=
  match show_fema_markers sb, fema_data with
  | true, Some fema =>
      m ++ [MarkerCluster
              (disaster_marker <$> fema_filtered fema (fema_year_range sb))]
  | _, _ => m
  end.

(** *** Enhanced county popups (lines 268-316) *)

(** [fema_data[fema_data['County'] == row['County']]]. *)
Definition county_fema (fema : list DisasterRow) (row : CountyRow)
    : list DisasterRow :=
  filter (λ d, fema_County d = County row) fema.

Definition fire_line (fire : DisasterRow) : string :=
  "• " +:+ declarationTitle fire +:+ " (" +:+
  strftime_Y (declarationDate fire) +:+ ")".

Definition icon_color (risk_category : string) : string :=
  if decide (risk_category = "High") then "darkred"
  else if decide (risk_category = "Moderate") then "orange"
  else "green".

Definition marker_location (feature : Feature) : Q * Q :=
  (default (Qmake 475 10) (INTPTLAT feature),
   default (Qmake (-1205) 10) (INTPTLON feature)).

Section with_sorter.
Context {sorter : Sorter}.

Definition recent_fires (county_fema : list DisasterRow) : list DisasterRow :=
  df_head 3 (sort_values date_desc county_fema).

(** The pair [(fema_count_county, fires_list)] of one popup. *)
Definition county_history (fema_data : option (list DisasterRow))
    (row : CountyRow) : nat * string :=
  match fema_data with
  | Some fema =>
      let county_fema := county_fema fema row in
      (length county_fema, join "<br>" (fire_line <$> recent_fires county_fema))
  | None => (0%nat, "Data not available")
  end.

Definition county_marker (fema_data : option (list DisasterRow))
    (row : CountyRow) (feature : Feature) : CountyMarker :=
  let history := county_history fema_data row in
  {| cm_location := marker_location feature;
     cm_County := County row;
     cm_risk_score := climate_fire_risk_score row;
     cm_risk_category := risk_category row;
     cm_climate_trend := climate_trend row;
     fema_count_county := history.1;
     cm_population := population row;
     cm_population_at_risk := population_at_risk row;
     cm_wui_exposure_pct := wui_exposure_pct row;
     fires_list := history.2;
     cm_icon_color := icon_color (risk_category row) |}.

(** The inner [for feature in geojson['features']] loop: the first
    feature whose [GEOID] equals [str(int(row['county_fips']))] gets
    a marker and ends the loop; when the features run out, nothing
    happens. *)
Fixpoint add_county_popup (fema_data : option (list DisasterRow))
    (row : CountyRow) (features : list Feature) (m : list MapChild)
    : list MapChild :=
  match features with
  | [] => m
  | feature :: features =>
      if decide (GEOID feature = pretty (county_fips row))
      then m ++ [InfoMarker (county_marker fema_data row feature)]
      else add_county_popup fema_data row features m
  end.

(** The outer [for _, row in filtered_df.iterrows()] loop. *)
Definition add_county_popups (fema_data : option (list DisasterRow))
    (geojson : list Feature) (filtered : list CountyRow)
    (m : list MapChild) : list MapChild :=
  foldl (λ m row, add_county_popup fema_data row geojson m) m filtered.

(** The whole map, from [folium.Map] to [folium.LayerControl]. *)
Definition build_map (df : list CountyRow) (geojson : list Feature)
    (fema_data : option (list DisasterRow)) (sb : Sidebar) : list MapChild :=
  let filtered := filtered_df df sb in
  let m : list MapChild := [] in
  let m := m ++ [ChoroplethLayer
    {| geo_data := geojson;
       data := (λ r, (county_fips r, climate_fire_risk_score r)) <$> filtered;
       key_on := "feature.properties.GEOID";
       fill_color := color_scheme sb;
       ch_fill_opacity := fill_opacity sb;
       nan_fill_color := "lightgray" |}] in
  let m := add_fema_markers fema_data sb m in
  let m := add_county_popups fema_data geojson filtered m in
  m ++ [LayerControl].
End with_sorter.

(** ** Key metrics row (lines 138-169) *)

(** The value of a metric card.  The last two stand for the f-strings
    [f"{x / 1000000:.1f}M"] and
    [f"{x / 1000000:.1f}M ({x / total * 100:.0f}%)"]: the card shows a
    float rendering of the integer operands kept here. *)
Inductive MetricValue :=
  | Count (n : nat)
  | Millions (x : Z)
  | MillionsPct (x total : Z).

(** [df[column].sum()] of an integer column. *)
Definition column_sum (column : CountyRow → Z) (df : list CountyRow) : Z :=
  foldr (λ r acc, column r + acc) 0 df.

Definition fema_count (fema_data : option (list DisasterRow)) : nat :=
  match fema_data with
  | Some fema => length fema
  | None => 211%nat
  end.

Definition metrics_row (df : list CountyRow)
    (fema_data : option (list DisasterRow)) : list (string * MetricValue) :=
  [ ("High Risk Counties",
      Count (length (filter (λ r, risk_category r = "High") df)));
    ("FEMA Fire Disasters", Count (fema_count fema_data));
    ("WUI Population", Millions (column_sum population df));
    ("High WUI Risk",
      MillionsPct (column_sum population_at_risk df) (column_sum population df)) ].

(** ** Map caption (lines 187-195) *)

Definition caption (sb : Sidebar) : string :=
  if decide (selected_trend sb = "Stable" ∧ selected_risk sb = "All") then
    "⚠️ Showing 'Stable' climate counties. Risk scores may still be elevated due to fire history or WUI exposure."
  else if decide (selected_trend sb = "Warming & Drying") then
    "🌡️ Showing counties with both warming and drying trends - highest climate concern."
  else if decide (selected_risk sb = "High") then
    "🔴 Showing high-risk counties (scores 55-100) regardless of climate trend."
  else
    "Counties colored by Climate-Fire Risk Score. Toggle layers to show FEMA disasters.".

(** ** Charts (lines 327-355) *)

(** The distinct values of a column, in order of first appearance. *)
Fixpoint unique (l : list string) : list string :=
  match l with
  | [] => []
  | x :: l => x :: filter (λ y, y ≠ x) (unique l)
  end.

Definition occurrences (v : string) (l : list string) : nat :=
  length (filter (λ y, y = v) l).

(** Order of [value_counts]: larger counts first. *)
Definition count_desc (a b : string * nat) : Prop := (b.2 ≤ a.2)%nat.

#[global] Instance count_desc_dec : RelDecision count_desc.
Proof. intros a b. unfold count_desc. apply _. Defined.

(** ** County rankings table (lines 359-387) *)

(** [fema_data.groupby('County').size()]: a count per county name that
    occurs in the disaster table. *)
Definition groupby_size (fema : list DisasterRow) : gmap string nat :=
  foldr (λ d acc,
           <[fema_County d := S (default 0%nat (acc !! fema_County d))]> acc)
        ∅ fema.

(** A float column after [.round(1)] (lines 380 and 382).  The cell
    holds the float that numpy's rounding to one decimal gives for [x];
    like the metric cards, it is kept as the operation on its operand,
    not as a decimal. *)
Inductive Rounded :=
  | round1 (x : Q).

(** Commas between groups of three digits, on the digits in reverse. *)
Fixpoint group3 (rev_digits : list Ascii.ascii) : list Ascii.ascii :=
  match rev_digits with
  | a :: b :: c :: rest =>
      match rest with
      | [] => [a; b; c]
      | _ :: _ => a :: b :: c :: Ascii.ascii_of_nat 44 :: group3 rest
      end
  | short => short
  end.

(** [f"{x:,.0f}"] of an integer (line 381): the decimal digits with
    thousands separators. *)
Definition format_thousands (x : Z) : string :=
  let digits := String.list_ascii_of_string (pretty (Z.abs x)) in
  let grouped := String.string_of_list_ascii (reverse (group3 (reverse digits))) in
  if decide (x < 0) then "-" +:+ grouped else grouped.

(** One row of [display_df] as it is shown: the two float columns
    rounded, the population at risk formatted.  [Federal_Disasters] is
    [None] when the table has no such column. *)
Record DisplayRow := mkDisplayRow {
  Rank : nat;
  dr_County : string;
  Risk_Score : Rounded;
  Category : string;
  Climate_Trend : string;
  Population_at_Risk : string;
  WUI_pct : Rounded;
  Federal_Disasters : option nat
}.

Record DisplayDf := mkDisplayDf {
  columns : list string;
  rows : list DisplayRow
}.

Definition display_row (fema_counts : option (gmap string nat))
    (i : nat) (r : CountyRow) : DisplayRow :=
  {| Rank := S i;
     dr_County := County r;
     Risk_Score := round1 (climate_fire_risk_score r);
     Category := risk_category r;
     Climate_Trend := climate_trend r;
     Population_at_Risk := format_thousands (population_at_risk r);
     WUI_pct := round1 (wui_exposure_pct r);
     Federal_Disasters :=
       match fema_counts with
       | Some counts => Some (default 0%nat (counts !! County r))
       | None => None
       end |}.

Definition display_df (filtered : list CountyRow)
    (fema_data : option (list DisasterRow)) : DisplayDf :=
  match fema_data with
  | Some fema =>
      let fema_counts := groupby_size fema in
      {| columns := ["Rank"; "County"; "Risk Score"; "Category"; "Climate Trend";
                     "Population at Risk"; "WUI %"; "Federal Disasters"];
         rows := imap (display_row (Some fema_counts)) filtered |}
  | None =>
      {| columns := ["Rank"; "County"; "Risk Score"; "Category"; "Climate Trend";
                     "Population at Risk"; "WUI %"];
         rows := imap (display_row None) filtered |}
  end.

(** ** The page *)

(** The Streamlit elements that carry data, in the order the script
    emits them (titles, rules and the fixed footer are constant text).
    The script writes nothing else: it has no [print], no logger, and its
    only [st.error] belongs to the loading step that precedes this
    pipeline.  [Uncaught] is the end of a run that raised: Streamlit
    shows the exception and nothing after it. *)
Inductive StElement :=
  | SidebarInfo (shown total : nat)
  | Metric (label : string) (value : MetricValue)
  | InfoBox (disasters : nat)
  | Caption (text : string)
  | FoliumStatic (m : list MapChild)
  | PlotlyPie (risk_counts : list (string * nat))
  | PlotlyBar (trend_counts : list (string * nat))
  | Dataframe (table : DisplayDf)
  | DownloadButton (csv : list CountyRow)
  | ErrorBox (message : string)
  | Uncaught (exception : string).

Section page.
Context {sorter : Sorter}.

(** [Series.value_counts()]. *)
Definition value_counts (l : list string) : list (string * nat) :=
  sort_values count_desc ((λ v, (v, occurrences v l)) <$> unique l).

Definition risk_counts (filtered : list CountyRow) : list (string * nat) :=
  value_counts (risk_category <$> filtered).
Definition trend_counts (filtered : list CountyRow) : list (string * nat) :=
  value_counts (climate_trend <$> filtered).

(** Everything from the sidebar line to the pie chart (lines 135-341). *)
Definition upper_page (df : list CountyRow) (geojson : list Feature)
    (fema_data : option (list DisasterRow)) (sb : Sidebar) : list StElement :=
  let filtered := filtered_df df sb in
  [SidebarInfo (length filtered) (length df)]
  ++ (uncurry Metric <$> metrics_row df fema_data)
  ++ match fema_data with Some fema => [InfoBox (length fema)] | None => [] end
  ++ [Caption (caption sb);
      FoliumStatic (build_map df geojson fema_data sb);
      PlotlyPie (risk_counts filtered)].

(** The bar chart, the table and the download (lines 343-396).
    [px.bar] is handed the index and the values of [trend_counts] as
    [x] and [y]; when both are empty it raises [ValueError], which
    nothing catches. *)
Definition lower_page (df : list CountyRow)
    (fema_data : option (list DisasterRow)) (sb : Sidebar) : list StElement :=
  match filtered_df df sb with
  | [] => [Uncaught "ValueError"]
  | filtered =>
      [PlotlyBar (trend_counts filtered);
       Dataframe (display_df filtered fema_data);
       DownloadButton filtered]
  end.

(** One run of the script on loaded data, for given widget values.
    The sidebar code converts [df['population'].max()] (line 111) and,
    with the checkbox set and the Disaster table loaded, the smallest
    and largest declaration year (lines 122-124) with [int]; on an
    empty table these are NaN and [int] raises [ValueError] before
    anything else is shown.  How the widgets validate their own
    arguments is outside the script. *)
Definition dashboard (df : list CountyRow) (geojson : list Feature)
    (fema_data : option (list DisasterRow)) (sb : Sidebar) : list StElement :=
  match df with
  | [] => [Uncaught "ValueError"]
  | _ :: _ =>
      match show_fema_markers sb, fema_data with
      | true, Some [] => [Uncaught "ValueError"]
      | _, _ => upper_page df geojson fema_data sb ++ lower_page df fema_data sb
      end
  end.
End page.

(** A concrete sorting routine meeting the contract: stdpp's merge sort. *)
Definition merge_sorter : Sorter :=
  {| sort_values A R _ := merge_sort R;
     sort_values_Permutation A R _ := merge_sort_Permutation R;
     sort_values_StronglySorted A R _ _ _ := StronglySorted_merge_sort R |}.

(** ** Views on the output *)

(** The metric cards of a page. *)
Definition metric_cards (page : list StElement) : list (string * MetricValue) :=
  omap (λ e, match e with Metric label value => Some (label, value) | _ => None end)
       page.

(** The county info markers of a map. *)
Definition info_markers (m : list MapChild) : list CountyMarker :=
  omap (λ c, match c with InfoMarker x => Some x | _ => None end) m.

(** The marker clusters of a map. *)
Definition marker_clusters (m : list MapChild) : list (list DisasterMarker) :=
  omap (λ c, match c with MarkerCluster x => Some x | _ => None end) m.

(** The feature the inner loop of the popup pass stops at, if any. *)
Definition matching_feature (row : CountyRow) (features : list Feature)
    : option Feature :=
  head (filter (λ feature, GEOID feature = pretty (county_fips row)) features).

(** The sidebar with another year range, everything else unchanged. *)
Definition with_year_range (yr : Z * Z) (sb : Sidebar) : Sidebar :=
  {| selected_risk := selected_risk sb;
     selected_trend := selected_trend sb;
     min_population := min_population sb;
     show_fema_markers := show_fema_markers sb;
     fema_year_range := yr |}.

Fixpoint zeros (n : nat) : string :=
  match n with
  | O => ""
  | S n => "0" +:+ zeros n
  end.

(** [str.zfill]: a digit string padded on the left with zeros. *)
Definition zfill (width : nat) (s : string) : string :=
  zeros (width - String.length s) +:+ s.

(** A county code written as a five-digit, zero-padded string. *)
Definition zero_padded_fips (fips : Z) : string := zfill 5 (pretty fips).



(** The run gets past the sidebar: the county table is not empty, and
    the Disaster table is not empty when its year slider is built. *)
Definition starts (df : list CountyRow) (fema_data : option (list DisasterRow))
    (sb : Sidebar) : Prop :=
  df ≠ [] ∧ (show_fema_markers sb = true → fema_data ≠ Some []).

(** The metrics row as it would be if population and at-risk population
    were summed over the filtered rows (for comparison with
    [metrics_row], which sums over [df]). *)
Definition metrics_row_filtered (df filtered : list CountyRow)
    (fema_data : option (list DisasterRow)) : list (string * MetricValue) :=
  [ ("High Risk Counties",
      Count (length (filter (λ r, risk_category r = "High") df)));
    ("FEMA Fire Disasters", Count (fema_count fema_data));
    ("WUI Population", Millions (column_sum population filtered));
    ("High WUI Risk",
      MillionsPct (column_sum population_at_risk filtered)
                  (column_sum population filtered)) ].

(** A second routine meeting the contract, which treats rows with equal
    keys in the opposite order. *)
Definition reversing_sorter : Sorter :=
  {| sort_values A R _ l := merge_sort R (reverse l);
     sort_values_Permutation A R _ l :=
       transitivity (merge_sort_Permutation R (reverse l)) (reverse_Permutation l);
     sort_values_StronglySorted A R _ _ _ l :=
       StronglySorted_merge_sort R (reverse l) |}.

(** What the popup pass adds to the map for one county. *)
Definition county_popup {sorter : Sorter} (fema_data : option (list DisasterRow))
    (geojson : list Feature) (row : CountyRow) : list MapChild :=
  match matching_feature row geojson with
  | Some feature => [InfoMarker (county_marker fema_data row feature)]
  | None => []
  end.

(** ** Loading (lines 88-94) *)

Definition files_not_found : string :=
  "⚠️ Data files not found. Please ensure data/ folder contains required files.".

(** The script from the loading step on.  Each argument is the parsed
    content of one data file, [None] when the file does not exist.
    [load_data] and [load_geojson] let [FileNotFoundError] escape to the
    [try] at line 88, which shows the error and stops the run;
    [load_fema_data] catches it and returns [None].  With both
    required files present the run goes on as [dashboard] says. *)
Definition main {sorter : Sorter} (data_csv : option (list CountyRow))
    (geojson_file : option (list Feature))
    (fema_csv : option (list DisasterRow)) (sb : Sidebar) : list StElement :=
  match data_csv, geojson_file with
  | Some df, Some geojson => dashboard df geojson fema_csv sb
  | _, _ => [ErrorBox files_not_found]
  end.

(** ** Sidebar option lists (lines 99-105) *)

(** Order of strings byte by byte.  On ASCII text a byte is a code
    point, so this is the order Python's [sorted] uses there. *)
Definition str_le (a b : string) : Prop := String.leb a b = true.

#[global] Instance str_le_dec : RelDecision str_le.
Proof. intros a b. unfold str_le. apply _. Defined.

(** Text made of ASCII characters only. *)
Definition ascii_only (s : string) : Prop :=
  Forall (λ a, (Ascii.nat_of_ascii a < 128)%nat) (String.list_ascii_of_string s).

(** Python's [sorted]. *)
Definition sorted (l : list string) : list string := merge_sort str_le l.

Definition risk_categories (df : list CountyRow) : list string :=
  "All" :: sorted (unique (risk_category <$> df)).

Definition climate_trends (df : list CountyRow) : list string :=
  "All" :: sorted (unique (climate_trend <$> df)).

(** The caption shown for the "Warming & Drying" trend. *)
Definition warming_caption : string :=
  "🌡️ Showing counties with both warming and drying trends - highest climate concern.".

(** ** Sample data *)

Definition chelan : CountyRow :=
  {| county_fips := 53007; County := "Chelan";
     population := 20000; population_at_risk := 5000;
     wui_exposure_pct := Qmake 25 1; climate_fire_risk_score := Qmake 72 1;
     risk_category := "High"; climate_trend := "Warming & Drying" |}.

Definition king : CountyRow :=
  {| county_fips := 53033; County := "King";
     population := 100000; population_at_risk := 20000;
     wui_exposure_pct := Qmake 20 1; climate_fire_risk_score := Qmake 30 1;
     risk_category := "Low"; climate_trend := "Stable" |}.

Definition chelan_feature : Feature :=
  {| GEOID := "53007"; INTPTLAT := Some (Qmake 479 10);
     INTPTLON := Some (Qmake (-1206) 10) |}.

Definition sample_sidebar : Sidebar :=
  {| selected_risk := "All"; selected_trend := "All"; min_population := 0;
     show_fema_markers := true; fema_year_range := (2015, 2024) |}.

Definition populous_sidebar : Sidebar :=
  {| selected_risk := "All"; selected_trend := "All"; min_population := 50000;
     show_fema_markers := true; fema_year_range := (2015, 2024) |}.

Definition tyee_fire : DisasterRow :=
  {| fema_County := "Chelan"; declarationTitle := "TYEE CREEK FIRE";
     declarationDate := mkTimestamp 1994 7 28 0; disasterNumber := 2103;
     lat := Some (Qmake 479 10); lon := Some (Qmake (-1206) 10) |}.

Definition apple_fire : DisasterRow :=
  {| fema_County := "Chelan"; declarationTitle := "APPLE ACRES FIRE";
     declarationDate := mkTimestamp 2020 7 16 0; disasterNumber := 5322;
     lat := None; lon := None |}.

Definition cold_springs_fire : DisasterRow :=
  {| fema_County := "Okanogan"; declarationTitle := "COLD SPRINGS FIRE";
     declarationDate := mkTimestamp 2020 9 7 0; disasterNumber := 5339;
     lat := Some (Qmake 484 10); lon := Some (Qmake (-1195) 10) |}.

Definition sample_fema : list DisasterRow :=
  [tyee_fire; apple_fire; cold_springs_fire].

(** * Properties *)

(** ** Shape of the page *)

Section page_shape.
Context {sorter : Sorter}.

Lemma dashboard_starts df geojson fema_data sb :
  starts df fema_data sb →
  dashboard df geojson fema_data sb =
    upper_page df geojson fema_data sb ++ lower_page df fema_data sb.
Proof.
  intros [Hdf Hfema]. unfold dashboard.
  destruct df as [|r df]; [done|].
  destruct (show_fema_markers sb); [|done].
  destruct fema_data as [[|d fema]|]; [by destruct Hfema|done..].
Qed.

Lemma dashboard_stops df geojson fema_data sb :
  ¬ starts df fema_data sb →
  dashboard df geojson fema_data sb = [Uncaught "ValueError"].
Proof.
  intros Hno. unfold dashboard.
  destruct df as [|r df]; [done|].
  destruct (show_fema_markers sb) eqn:Hshow;
    [|destruct Hno; split; [done|by rewrite Hshow]].
  destruct fema_data as [[|d fema]|]; [done|..];
    destruct Hno; split; done.
Qed.

Lemma starts_dec df fema_data sb :
  starts df fema_data sb ∨ ¬ starts df fema_data sb.
Proof.
  unfold starts. destruct df as [|r df]; [right; by intros [? _]|].
  destruct (show_fema_markers sb); [|left; by split].
  destruct fema_data as [[|d fema]|];
    [right; intros [_ Hf]; by destruct Hf|left; by split..].
Qed.

Lemma elem_of_upper_page df geojson fema_data sb (e : StElement) :
  e ∈ upper_page df geojson fema_data sb ↔
  e = SidebarInfo (length (filtered_df df sb)) (length df) ∨
  (∃ card, card ∈ metrics_row df fema_data ∧ e = uncurry Metric card) ∨
  (∃ fema, fema_data = Some fema ∧ e = InfoBox (length fema)) ∨
  e = Caption (caption sb) ∨
  e = FoliumStatic (build_map df geojson fema_data sb) ∨
  e = PlotlyPie (risk_counts (filtered_df df sb)).
Proof.
  unfold upper_page.
  rewrite !elem_of_app, !elem_of_cons, elem_of_nil, list_elem_of_fmap.
  split.
  - intros [[?|[]]|[(card & ? & ?)|[Hin|[?|[?|[?|[]]]]]]]; eauto 10.
    destruct fema_data as [fema|]; [|by apply elem_of_nil in Hin].
    apply list_elem_of_singleton in Hin. eauto 10.
  - intros [?|[(card & ? & ?)|[(fema & -> & ->)|[?|[?|?]]]]]; eauto 10.
    right. right. left. by left.
Qed.

Lemma elem_of_lower_page df fema_data sb (e : StElement) :
  e ∈ lower_page df fema_data sb ↔
  (filtered_df df sb = [] ∧ e = Uncaught "ValueError") ∨
  (filtered_df df sb ≠ [] ∧
   (e = PlotlyBar (trend_counts (filtered_df df sb)) ∨
    e = Dataframe (display_df (filtered_df df sb) fema_data) ∨
    e = DownloadButton (filtered_df df sb))).
Proof.
  unfold lower_page. destruct (filtered_df df sb) as [|r filtered].
  - rewrite list_elem_of_singleton. split.
    + intros ->. by left.
    + by intros [[_ ?]|[? _]].
  - rewrite !elem_of_cons, elem_of_nil. split.
    + intros [?|[?|[?|[]]]]; right; split; auto.
    + intros [[? _]|[_ [?|[?|?]]]]; [done|auto..].
Qed.

Lemma elem_of_dashboard df geojson fema_data sb (e : StElement) :
  e ∈ dashboard df geojson fema_data sb ↔
  (¬ starts df fema_data sb ∧ e = Uncaught "ValueError") ∨
  (starts df fema_data sb ∧
   (e ∈ upper_page df geojson fema_data sb ∨ e ∈ lower_page df fema_data sb)).
Proof.
  destruct (starts_dec df fema_data sb) as [Hs|Hs].
  - rewrite dashboard_starts, elem_of_app by done. split; [auto|].
    by intros [[? _]|[_ ?]].
  - rewrite dashboard_stops, list_elem_of_singleton by done. split; [auto|].
    by intros [[_ ?]|[? _]].
Qed.

Lemma dashboard_no_error df geojson fema_data sb message :
  ErrorBox message ∉ dashboard df geojson fema_data sb.
Proof.
  intros [[_ ?]|[_ [Hin|Hin]]]%elem_of_dashboard; [done| |].
  - apply elem_of_upper_page in Hin
      as [?|[([label value] & _ & ?)|[(? & ? & ?)|[?|[?|?]]]]]; done.
  - apply elem_of_lower_page in Hin as [[_ ?]|[_ [?|[?|?]]]]; done.
Qed.

Lemma dashboard_uncaught df geojson fema_data sb exception :
  Uncaught exception ∈ dashboard df geojson fema_data sb ↔
  exception = "ValueError" ∧
  (¬ starts df fema_data sb ∨ filtered_df df sb = []).
Proof.
  rewrite elem_of_dashboard, elem_of_upper_page, elem_of_lower_page. split.
  - intros [[Hno [= ->]]|[_ [Hin|[[? [= ->]]|[_ [?|[?|?]]]]]]]; try done; auto.
    destruct Hin as [?|[([label value] & _ & ?)|[(? & ? & ?)|[?|[?|?]]]]]; done.
  - intros [-> [Hno|Hempty]]; [by left|].
    destruct (starts_dec df fema_data sb); [right|left]; auto.
Qed.

Lemma metric_cards_pages df geojson fema_data sb :
  metric_cards (upper_page df geojson fema_data sb ++ lower_page df fema_data sb)
    = metrics_row df fema_data.
Proof.
  unfold metric_cards, upper_page, lower_page. rewrite !omap_app.
  destruct fema_data, (filtered_df df sb); done.
Qed.

End page_shape.

(** ** The filter *)

Lemma filtered_df_filter df sb : filtered_df df sb = filter (passes sb) df.
Proof.
  unfold filtered_df, passes.
  destruct (decide (selected_risk sb ≠ "All"));
    destruct (decide (selected_trend sb ≠ "All"));
    rewrite ?list_filter_filter; apply list_filter_iff; intros r; tauto.
Qed.

(** C2: for every Counties table and every choice of the sidebar values,
    the filter returns exactly the rows that satisfy the conjunction of
    the three predicates (category equality unless the category is
    "All", trend equality unless the trend is "All", population at
    least the minimum): it is the input filtered by that conjunction, a
    sub-list of the input, and membership is membership in the input
    together with all three predicates. *)
Theorem filtered_df_is_conjunction (df : list CountyRow) (sb : Sidebar) :
  filtered_df df sb = filter (passes sb) df ∧
  filtered_df df sb `sublist_of` df ∧
  ∀ r, r ∈ filtered_df df sb ↔
       r ∈ df ∧
       (selected_risk sb ≠ "All" → risk_category r = selected_risk sb) ∧
       (selected_trend sb ≠ "All" → climate_trend r = selected_trend sb) ∧
       min_population sb ≤ population r.
Proof.
  rewrite filtered_df_filter. split_and!; [done|apply sublist_filter|].
  intros r. rewrite list_elem_of_filter. unfold passes. tauto.
Qed.

(** ** The choropleth style *)

(** C6: the choropleth style is a function of the pair (trend,
    category) decided by first match: "Warming & Drying" gives Reds at
    0.8; otherwise "Stable" gives Greens at 0.6; otherwise category
    "Low" gives Greens at 0.6; otherwise YlOrRd at 0.7.  Hence
    ("Warming & Drying", "Low") gives Reds at 0.8. *)
Theorem color_style_first_match (trend category : string) :
  (trend = "Warming & Drying" →
     color_style trend category = ("Reds", Qmake 8 10)) ∧
  (trend ≠ "Warming & Drying" → trend = "Stable" →
     color_style trend category = ("Greens", Qmake 6 10)) ∧
  (trend ≠ "Warming & Drying" → trend ≠ "Stable" → category = "Low" →
     color_style trend category = ("Greens", Qmake 6 10)) ∧
  (trend ≠ "Warming & Drying" → trend ≠ "Stable" → category ≠ "Low" →
     color_style trend category = ("YlOrRd", Qmake 7 10)) ∧
  color_style "Warming & Drying" "Low" = ("Reds", Qmake 8 10).
Proof.
  unfold color_style. split_and!; intros; subst;
    repeat (destruct (decide _); try done).
Qed.

(** ** The metrics row *)

Lemma metric_cards_dashboard {sorter : Sorter} df geojson fema_data sb :
  starts df fema_data sb →
  metric_cards (dashboard df geojson fema_data sb) = metrics_row df fema_data.
Proof. intros Hs. rewrite dashboard_starts by done. apply metric_cards_pages. Qed.

(** C1 (as amended): every card of the metrics row is computed from the
    unfiltered tables.  The high-risk count, the population total and
    the at-risk population with its share of the total are all taken
    over the full Counties dataset, so the whole row is the same under
    every filter combination.  The cards are shown whenever the run
    gets past the sidebar, that is unless the county table is empty or
    the Disaster table is empty while the checkbox is set; then the
    sidebar code raises and no card is shown. *)
Theorem metrics_row_unfiltered {sorter : Sorter} (df : list CountyRow)
    (geojson : list Feature) (fema_data : option (list DisasterRow))
    (sb : Sidebar) :
  (df ≠ [] ∧ (show_fema_markers sb = true → fema_data ≠ Some []) →
   metric_cards (dashboard df geojson fema_data sb) =
     [ ("High Risk Counties",
         Count (length (filter (λ r, risk_category r = "High") df)));
       ("FEMA Fire Disasters", Count (fema_count fema_data));
       ("WUI Population", Millions (column_sum population df));
       ("High WUI Risk",
         MillionsPct (column_sum population_at_risk df)
                     (column_sum population df)) ]) ∧
  (¬ (df ≠ [] ∧ (show_fema_markers sb = true → fema_data ≠ Some [])) →
   metric_cards (dashboard df geojson fema_data sb) = []) ∧
  (∀ sb', show_fema_markers sb' = show_fema_markers sb →
          metric_cards (dashboard df geojson fema_data sb') =
          metric_cards (dashboard df geojson fema_data sb)) ∧
  (fema_data ≠ Some [] →
   ∀ sb', metric_cards (dashboard df geojson fema_data sb') =
          metric_cards (dashboard df geojson fema_data sb)).
Proof.
  assert (∀ sb0, ¬ starts df fema_data sb0 →
                 metric_cards (dashboard df geojson fema_data sb0) = [])
    as Hstop by (intros sb0 Hno; by rewrite dashboard_stops).
  split_and!.
  - intros Hs. by rewrite metric_cards_dashboard.
  - apply Hstop.
  - intros sb' Hshow.
    assert (starts df fema_data sb' ↔ starts df fema_data sb) as Hiff
      by (unfold starts; by rewrite Hshow).
    destruct (starts_dec df fema_data sb) as [Hs|Hs].
    + by rewrite !metric_cards_dashboard by by (done || apply Hiff).
    + by rewrite !Hstop by by (done || rewrite Hiff).
  - intros Hfema sb'. destruct df as [|r df]; [done|].
    by rewrite !metric_cards_dashboard by by split.
Qed.

Lemma metrics_row_unfiltered_witness :
  ([chelan; king] ≠ [] ∧
   (show_fema_markers populous_sidebar = true →
    (None : option (list DisasterRow)) ≠ Some [])) ∧
  metric_cards (dashboard (sorter := merge_sorter) [chelan; king] [] None
                  populous_sidebar) =
    [ ("High Risk Counties",
        Count (length (filter (λ r, risk_category r = "High") [chelan; king])));
      ("FEMA Fire Disasters", Count (fema_count None));
      ("WUI Population", Millions (column_sum population [chelan; king]));
      ("High WUI Risk",
        MillionsPct (column_sum population_at_risk [chelan; king])
                    (column_sum population [chelan; king])) ].
Proof.
  assert ([chelan; king] ≠ [] ∧
          (show_fema_markers populous_sidebar = true →
           (None : option (list DisasterRow)) ≠ Some [])) as Hs by by split.
  split; [exact Hs|].
  exact (proj1 (metrics_row_unfiltered (sorter := merge_sorter) [chelan; king] []
                  None populous_sidebar) Hs).
Defined.

(** C1 as stated fails: with Chelan (20000 people) and King (100000) and
    a population floor of 50000, only King passes the filter, yet the
    population cards still show the totals of both counties. *)
Lemma metrics_row_filtered_counterexample :
  filtered_df [chelan; king] populous_sidebar = [king] ∧
  metric_cards
      (dashboard (sorter := merge_sorter) [chelan; king] [] None populous_sidebar) =
    [ ("High Risk Counties", Count 1); ("FEMA Fire Disasters", Count 211);
      ("WUI Population", Millions 120000);
      ("High WUI Risk", MillionsPct 25000 120000) ] ∧
  metrics_row_filtered [chelan; king]
      (filtered_df [chelan; king] populous_sidebar) None =
    [ ("High Risk Counties", Count 1); ("FEMA Fire Disasters", Count 211);
      ("WUI Population", Millions 100000);
      ("High WUI Risk", MillionsPct 20000 100000) ] ∧
  metric_cards
      (dashboard (sorter := merge_sorter) [chelan; king] [] None populous_sidebar) ≠
    metrics_row_filtered [chelan; king]
      (filtered_df [chelan; king] populous_sidebar) None.
Proof. split_and!; [reflexivity..|]. intros [=]. Qed.

(** ** Recent fires *)

#[global] Instance ts_le_total : Total ts_le.
Proof. intros a b. unfold ts_le. lia. Qed.

#[global] Instance ts_le_trans : Transitive ts_le.
Proof. intros a b c. unfold ts_le. lia. Qed.

#[global] Instance date_desc_total : Total date_desc.
Proof.
  intros a b. unfold date_desc.
  destruct (total ts_le (declarationDate a) (declarationDate b)); auto.
Qed.

#[global] Instance date_desc_trans : Transitive date_desc.
Proof. intros a b c Hab Hbc. unfold date_desc in *. by etrans. Qed.

Lemma StronglySorted_sublist {A} (R : relation A) (l k : list A) :
  l `sublist_of` k → StronglySorted R k → StronglySorted R l.
Proof.
  induction 1 as [|x l k Hsub IH|x l k Hsub IH]; intros Hk.
  - constructor.
  - apply StronglySorted_inv in Hk as [Hk Hx]. constructor; [by apply IH|].
    rewrite Forall_forall in Hx |- *. intros y Hy.
    apply Hx. by eapply elem_of_sublist.
  - apply StronglySorted_inv in Hk as [Hk _]. by apply IH.
Qed.

Section recent.
Context {sorter : Sorter}.

Lemma head_sorted_length (n : nat) (ds : list DisasterRow) :
  (length (df_head n (sort_values date_desc ds)) ≤ n)%nat.
Proof. unfold df_head. rewrite length_take. lia. Qed.

Lemma head_sorted_sorted (n : nat) (ds : list DisasterRow) :
  StronglySorted date_desc (df_head n (sort_values date_desc ds)).
Proof.
  eapply StronglySorted_sublist; [apply sublist_take|].
  apply sort_values_StronglySorted; apply _.
Qed.

Lemma head_sorted_submseteq (n : nat) (ds : list DisasterRow) :
  df_head n (sort_values date_desc ds) ⊆+ ds.
Proof.
  etrans; [apply submseteq_take|].
  apply Permutation_submseteq, sort_values_Permutation.
Qed.

Lemma county_fema_sublist fema row : county_fema fema row `sublist_of` fema.
Proof. apply sublist_filter. Qed.

(** C3 (as amended): for every disaster sequence [ds] and every [n],
    the first [n] rows of [ds] sorted by declaration date, newest first,
    are at most [n] rows, non-increasing by date, and a sub-multiset of
    [ds] (each row is a row of [ds], used at most as often as it occurs
    there).  The popup takes [n = 3] and [ds] = the county's rows of the
    full Disaster table, whatever the selected year range. *)
Theorem recent_fires_top (n : nat) (ds : list DisasterRow) :
  ((length (df_head n (sort_values date_desc ds)) ≤ n)%nat ∧
   StronglySorted (λ a b, ts_le (declarationDate b) (declarationDate a))
                  (df_head n (sort_values date_desc ds)) ∧
   df_head n (sort_values date_desc ds) ⊆+ ds) ∧
  ∀ (fema : list DisasterRow) (row : CountyRow),
    recent_fires (county_fema fema row) =
      df_head 3 (sort_values date_desc (county_fema fema row)) ∧
    (length (recent_fires (county_fema fema row)) ≤ 3)%nat ∧
    recent_fires (county_fema fema row) ⊆+ fema ∧
    ∀ d, d ∈ recent_fires (county_fema fema row) →
         d ∈ fema ∧ fema_County d = County row.
Proof.
  split.
  { split_and!; [apply head_sorted_length|apply head_sorted_sorted|
                 apply head_sorted_submseteq]. }
  intros fema row.
  assert (recent_fires (county_fema fema row) ⊆+ county_fema fema row) as Hsub
    by apply head_sorted_submseteq.
  split_and!; [done|apply head_sorted_length| |].
  - etrans; [done|]. apply sublist_submseteq, county_fema_sublist.
  - intros d Hd. eapply elem_of_submseteq in Hd; [|done].
    apply list_elem_of_filter in Hd. tauto.
Qed.
End recent.

(** C3 as stated fails on two counts.  The result need not lie within
    the year-filtered input: with the range 2015-2024 the only Chelan
    disaster, declared in 1994, is outside the year filter and is still
    the county's recent fire.  And the order of equal dates is not fixed
    by the contract of [sort_values]: a routine that meets it lists two
    fires of the same day against their input order. *)
Lemma recent_fires_year_counterexample :
  (fema_year_range sample_sidebar = (2015, 2024) ∧
   filter (in_year_range (2015, 2024)) [tyee_fire] = [] ∧
   recent_fires (sorter := merge_sorter) (county_fema [tyee_fire] chelan)
     = [tyee_fire] ∧
   ¬ (recent_fires (sorter := merge_sorter) (county_fema [tyee_fire] chelan)
        ⊆+ filter (in_year_range (2015, 2024)) [tyee_fire])) ∧
  (let a := mkDisasterRow "Chelan" "A" (mkTimestamp 2020 7 16 0) 1 None None in
   let b := mkDisasterRow "Chelan" "B" (mkTimestamp 2020 7 16 0) 2 None None in
   recent_fires (sorter := merge_sorter) [a; b] = [a; b] ∧
   recent_fires (sorter := reversing_sorter) [a; b] = [b; a]).
Proof.
  split; [|split; reflexivity].
  split_and!; [reflexivity..|].
  intros Hsub. apply submseteq_length in Hsub. vm_compute in Hsub. lia.
Qed.

(** ** Shape of the map *)

Section map_shape.
Context {sorter : Sorter}.

Lemma add_county_popup_app fema_data row features m :
  add_county_popup fema_data row features m =
    m ++ county_popup fema_data features row.
Proof.
  unfold county_popup, matching_feature.
  induction features as [|feature features IH]; simpl.
  - by rewrite app_nil_r.
  - rewrite filter_cons. destruct (decide _); [done|apply IH].
Qed.

Lemma add_county_popups_app fema_data geojson filtered m :
  add_county_popups fema_data geojson filtered m =
    m ++ (filtered ≫= county_popup fema_data geojson).
Proof.
  unfold add_county_popups. revert m.
  induction filtered as [|row filtered IH]; intros m; simpl.
  - by rewrite app_nil_r.
  - rewrite IH, add_county_popup_app. by rewrite <-(assoc_L (++)).
Qed.

Lemma build_map_shape df geojson fema_data sb :
  build_map df geojson fema_data sb =
    [ChoroplethLayer
       {| geo_data := geojson;
          data := (λ r, (county_fips r, climate_fire_risk_score r))
                    <$> filtered_df df sb;
          key_on := "feature.properties.GEOID";
          fill_color := color_scheme sb;
          ch_fill_opacity := fill_opacity sb;
          nan_fill_color := "lightgray" |}]
    ++ add_fema_markers fema_data sb []
    ++ (filtered_df df sb ≫= county_popup fema_data geojson)
    ++ [LayerControl].
Proof.
  unfold build_map. rewrite add_county_popups_app.
  unfold add_fema_markers.
  destruct (show_fema_markers sb), fema_data; simpl; by rewrite <-?(assoc_L (++)).
Qed.

Lemma info_markers_bind fema_data geojson filtered :
  info_markers (filtered ≫= county_popup fema_data geojson) =
    omap (λ row, county_marker fema_data row <$> matching_feature row geojson)
         filtered.
Proof.
  unfold info_markers.
  induction filtered as [|row filtered IH]; [done|].
  rewrite bind_cons, omap_app, IH. unfold county_popup. simpl.
  by destruct (matching_feature row geojson).
Qed.

Lemma info_markers_build_map df geojson fema_data sb :
  info_markers (build_map df geojson fema_data sb) =
    omap (λ row, county_marker fema_data row <$> matching_feature row geojson)
         (filtered_df df sb).
Proof.
  rewrite build_map_shape. unfold info_markers at 1.
  rewrite !omap_app. fold info_markers. rewrite info_markers_bind.
  unfold add_fema_markers.
  destruct (show_fema_markers sb), fema_data; simpl; by rewrite ?app_nil_r.
Qed.

Lemma marker_clusters_bind fema_data geojson filtered :
  marker_clusters (filtered ≫= county_popup fema_data geojson) = [].
Proof.
  unfold marker_clusters.
  induction filtered as [|row filtered IH]; [done|].
  rewrite bind_cons, omap_app, IH. unfold county_popup.
  by destruct (matching_feature row geojson).
Qed.

Lemma marker_clusters_build_map df geojson fema_data sb :
  marker_clusters (build_map df geojson fema_data sb) =
    match show_fema_markers sb, fema_data with
    | true, Some fema =>
        [disaster_marker <$> fema_filtered fema (fema_year_range sb)]
    | _, _ => []
    end.
Proof.
  rewrite build_map_shape. unfold marker_clusters at 1.
  rewrite !omap_app. fold marker_clusters. rewrite marker_clusters_bind.
  unfold add_fema_markers.
  by destruct (show_fema_markers sb), fema_data.
Qed.

Lemma elem_of_info_markers (c : CountyMarker) (m : list MapChild) :
  c ∈ info_markers m ↔ InfoMarker c ∈ m.
Proof.
  unfold info_markers. rewrite list_elem_of_omap. split.
  - intros (x & Hx & Hc). destruct x; naive_solver.
  - intros Hc. by exists (InfoMarker c).
Qed.

Lemma elem_of_marker_clusters (k : list DisasterMarker) (m : list MapChild) :
  k ∈ marker_clusters m ↔ MarkerCluster k ∈ m.
Proof.
  unfold marker_clusters. rewrite list_elem_of_omap. split.
  - intros (x & Hx & Hc). destruct x; naive_solver.
  - intros Hc. by exists (MarkerCluster k).
Qed.

End map_shape.

Section popups.
Context {sorter : Sorter}.

Lemma info_marker_inv df geojson fema_data sb c :
  InfoMarker c ∈ build_map df geojson fema_data sb ↔
  ∃ row feature, row ∈ filtered_df df sb ∧
    matching_feature row geojson = Some feature ∧
    c = county_marker fema_data row feature.
Proof.
  rewrite <-elem_of_info_markers, info_markers_build_map, list_elem_of_omap.
  split.
  - intros (row & Hrow & Hc).
    destruct (matching_feature row geojson) as [feature|] eqn:Hm; [|done].
    exists row, feature. by simplify_eq/=.
  - intros (row & feature & Hrow & Hm & ->). exists row. by rewrite Hm.
Qed.


Lemma matching_feature_None row geojson :
  matching_feature row geojson = None ↔
  ∀ feature, feature ∈ geojson → GEOID feature ≠ pretty (county_fips row).
Proof.
  unfold matching_feature. rewrite head_None. split.
  - intros Hnil feature Hin Heq.
    assert (feature ∈ filter (λ feature, GEOID feature = pretty (county_fips row))
                             geojson) as Hf by by apply list_elem_of_filter.
    rewrite Hnil in Hf. by apply elem_of_nil in Hf.
  - intros Hno.
    destruct (filter _ geojson) as [|feature l] eqn:Hf; [done|].
    assert (feature ∈ filter (λ feature, GEOID feature = pretty (county_fips row))
                             geojson) as Hin by (rewrite Hf; left).
    apply list_elem_of_filter in Hin as [Heq Hin]. by apply Hno in Hin.
Qed.

(** ** Degraded output without the Disaster table *)

Lemma filtered_df_nil sb : filtered_df [] sb = [].
Proof. by rewrite filtered_df_filter. Qed.

Lemma filtered_df_nonempty df sb : filtered_df df sb ≠ [] → df ≠ [].
Proof. intros Hne ->. by rewrite filtered_df_nil in Hne. Qed.

(** C4 (as amended): a missing Disaster table never makes the run fail,
    and what is shown is degraded: the FEMA-disasters card shows the
    constant 211, every county popup shows a federal-disaster count of 0
    and the text "Data not available" for its fire list, and the ranked
    table is shown without a federal-disaster column.  The run stops
    early only where it does with the table loaded as well: with an
    empty selection (an empty county table included) [ValueError] ends
    it, before the ranked table; otherwise the table is on the page. *)
Theorem disaster_table_unavailable (df : list CountyRow)
    (geojson : list Feature) (sb : Sidebar) :
  (df ≠ [] →
   ("FEMA Fire Disasters", Count 211) ∈
     metric_cards (dashboard df geojson None sb)) ∧
  (∀ c, InfoMarker c ∈ build_map df geojson None sb →
        fema_count_county c = 0%nat ∧ fires_list c = "Data not available") ∧
  (filtered_df df sb ≠ [] →
   Dataframe (display_df (filtered_df df sb) None) ∈
     dashboard df geojson None sb) ∧
  (∀ table, Dataframe table ∈ dashboard df geojson None sb →
            table = display_df (filtered_df df sb) None) ∧
  (∀ exception, Uncaught exception ∈ dashboard df geojson None sb ↔
                exception = "ValueError" ∧ filtered_df df sb = []) ∧
  columns (display_df (filtered_df df sb) None) =
    ["Rank"; "County"; "Risk Score"; "Category"; "Climate Trend";
     "Population at Risk"; "WUI %"] ∧
  length (rows (display_df (filtered_df df sb) None)) =
    length (filtered_df df sb) ∧
  ∀ r, r ∈ rows (display_df (filtered_df df sb) None) →
       Federal_Disasters r = None.
Proof.
  assert (df ≠ [] → starts df None sb) as Hstarts by (intros ?; by split).
  split_and!.
  - intros Hdf. rewrite metric_cards_dashboard by auto.
    unfold metrics_row. simpl. rewrite !elem_of_cons. tauto.
  - intros c (row & feature & _ & _ & ->)%info_marker_inv. done.
  - intros Hne. apply elem_of_dashboard. right.
    split; [by apply Hstarts, (filtered_df_nonempty df sb)|]. right.
    apply elem_of_lower_page. right. auto.
  - intros table [[_ ?]|[_ [Hin|Hin]]]%elem_of_dashboard; [done| |].
    + apply elem_of_upper_page in Hin
        as [?|[([label value] & _ & ?)|[(? & ? & ?)|[?|[?|?]]]]]; done.
    + apply elem_of_lower_page in Hin as [[_ ?]|[_ [?|[?|?]]]]; try done.
      by simplify_eq.
  - intros exception. rewrite elem_of_dashboard, elem_of_upper_page,
      elem_of_lower_page. split.
    + intros [[Hno [= ->]]|[_ [Hin|[[? [= ->]]|[_ [?|[?|?]]]]]]]; try done.
      * split; [done|]. destruct df as [|r df]; [apply filtered_df_nil|].
        destruct Hno. by apply Hstarts.
      * destruct Hin as [?|[([label value] & _ & ?)|[(? & ? & ?)|[?|[?|?]]]]];
          done.
    + intros [-> Hempty]. destruct df as [|r df].
      * left. split; [by intros [? _]|done].
      * right. split; [by apply Hstarts|]. right. by left.
  - done.
  - simpl. apply length_imap.
  - simpl. intros r (i & row & -> & _)%elem_of_lookup_imap. done.
Qed.

End popups.

(** C4 as stated fails on the ranked table: without the Disaster table
    the table of the single county Chelan has seven columns, none of
    them "Federal Disasters", and its row carries no federal-disaster
    value, so the column is not filled with zeros. *)
Lemma federal_column_counterexample :
  display_df (filtered_df [chelan] sample_sidebar) None =
    {| columns := ["Rank"; "County"; "Risk Score"; "Category"; "Climate Trend";
                   "Population at Risk"; "WUI %"];
       rows := [mkDisplayRow 1 "Chelan" (round1 (Qmake 72 1)) "High"
                             "Warming & Drying" "5,000" (round1 (Qmake 25 1))
                             None] |} ∧
  ("Federal Disasters" ∉
     columns (display_df (filtered_df [chelan] sample_sidebar) None)) ∧
  (¬ Forall (λ r, Federal_Disasters r = Some 0%nat)
            (rows (display_df (filtered_df [chelan] sample_sidebar) None))).
Proof.
  split_and!; [reflexivity| |].
  - apply (bool_decide_unpack _). by vm_compute.
  - intros Hall. apply Forall_cons_1 in Hall as [[=] _].
Qed.

Lemma disaster_table_unavailable_witness :
  filtered_df [chelan] sample_sidebar ≠ [] ∧
  Dataframe (display_df (filtered_df [chelan] sample_sidebar) None) ∈
    dashboard (sorter := merge_sorter) [chelan] [chelan_feature] None
              sample_sidebar.
Proof.
  assert (filtered_df [chelan] sample_sidebar ≠ []) as Hne by discriminate.
  split; [exact Hne|].
  exact (proj1 (proj2 (proj2 (disaster_table_unavailable (sorter := merge_sorter)
                                [chelan] [chelan_feature] sample_sidebar)))
           Hne).
Defined.

(** ** County totals and the time-scoped point layer *)

Lemma length_filter_impl {A} (P Q : A → Prop)
    `{!∀ x, Decision (P x), !∀ x, Decision (Q x)} (l : list A) :
  (∀ x, P x → Q x) → (length (filter P l) ≤ length (filter Q l))%nat.
Proof.
  intros HPQ. induction l as [|x l IH]; [done|].
  rewrite !filter_cons.
  destruct (decide (P x)) as [HP|HP], (decide (Q x)) as [HQ|HQ];
    rewrite ?length_cons.
  - by apply ->Nat.succ_le_mono.
  - destruct HQ. auto.
  - by apply Nat.le_le_succ_r.
  - done.
Qed.

Lemma fema_filtered_conj fema yr :
  fema_filtered fema yr =
    filter (λ d, has_coordinates d ∧ in_year_range yr d) fema.
Proof. unfold fema_filtered. apply list_filter_filter. Qed.

Lemma fema_filtered_narrow fema (yr yr' : Z * Z) :
  yr.1 ≤ yr'.1 → yr'.2 ≤ yr.2 →
  (length (fema_filtered fema yr') ≤ length (fema_filtered fema yr))%nat.
Proof.
  intros Hlo Hhi. rewrite !fema_filtered_conj.
  apply length_filter_impl. unfold in_year_range.
  intros d [Hcoord [Hge Hle]]. split; [done|]. split; lia.
Qed.

Lemma filtered_df_with_year_range df yr sb :
  filtered_df df (with_year_range yr sb) = filtered_df df sb.
Proof. done. Qed.

Section totals.
Context {sorter : Sorter}.

(** C5: with the Disaster table loaded, the federal-disaster count in
    the popup of a filtered county is the number of rows of the full
    table whose county name equals the county's name (every info marker
    of the map carries that count, and every filtered county with a
    geometry feature has such a marker); the info markers, hence the
    counts, are the same for every year range; and the number of points
    of the clustered layer does not grow when the year range is
    narrowed. *)
Theorem county_total_all_time (df : list CountyRow) (geojson : list Feature)
    (fema : list DisasterRow) (sb : Sidebar) :
  (∀ c, InfoMarker c ∈ build_map df geojson (Some fema) sb →
     ∃ row, row ∈ filtered_df df sb ∧ cm_County c = County row ∧
       fema_count_county c =
         length (filter (λ d, fema_County d = County row) fema)) ∧
  (∀ row feature,
     row ∈ filtered_df df sb → matching_feature row geojson = Some feature →
     ∃ c, InfoMarker c ∈ build_map df geojson (Some fema) sb ∧
       cm_County c = County row ∧
       fema_count_county c =
         length (filter (λ d, fema_County d = County row) fema)) ∧
  (∀ yr, info_markers (build_map df geojson (Some fema) (with_year_range yr sb))
         = info_markers (build_map df geojson (Some fema) sb)) ∧
  (∀ yr yr' k k',
     yr.1 ≤ yr'.1 → yr'.2 ≤ yr.2 →
     MarkerCluster k ∈ build_map df geojson (Some fema) (with_year_range yr sb) →
     MarkerCluster k' ∈ build_map df geojson (Some fema) (with_year_range yr' sb) →
     (length k' ≤ length k)%nat).
Proof.
  split_and!.
  - intros c (row & feature & Hrow & _ & ->)%info_marker_inv.
    exists row. by split_and!.
  - intros row feature Hrow Hm.
    exists (county_marker (Some fema) row feature). split_and!; [|done..].
    apply info_marker_inv. by exists row, feature.
  - intros yr. by rewrite !info_markers_build_map, filtered_df_with_year_range.
  - intros yr yr' k k' Hlo Hhi.
    rewrite <-!elem_of_marker_clusters, !marker_clusters_build_map. simpl.
    destruct (show_fema_markers sb); [|by intros ?%elem_of_nil].
    intros ->%list_elem_of_singleton ->%list_elem_of_singleton.
    rewrite !length_fmap. by apply fema_filtered_narrow.
Qed.

(** ** Counties without a geometry feature *)

(** C7 (as amended): a filtered county for which no feature's GEOID
    equals its code is skipped silently.  Its pass through the feature
    loop leaves the map as it was, so the popup pass yields the same map
    as without that county, and no run of the pipeline puts an error
    message on the page. *)
Theorem geometry_lookup_failure_silent
    (fema_data : option (list DisasterRow)) (geojson : list Feature)
    (row : CountyRow)
    (Hno : ∀ feature, feature ∈ geojson →
                      GEOID feature ≠ pretty (county_fips row)) :
  (∀ m, add_county_popup fema_data row geojson m = m) ∧
  (∀ before after m,
     add_county_popups fema_data geojson (before ++ row :: after) m =
     add_county_popups fema_data geojson (before ++ after) m) ∧
  (∀ df sb message, ErrorBox message ∉ dashboard df geojson fema_data sb).
Proof.
  apply matching_feature_None in Hno.
  assert (county_popup fema_data geojson row = []) as Hpop
    by (unfold county_popup; by rewrite Hno).
  split_and!.
  - intros m. by rewrite add_county_popup_app, Hpop, app_nil_r.
  - intros before after m. rewrite !add_county_popups_app.
    by rewrite !bind_app, bind_cons, Hpop.
  - intros df sb message. apply dashboard_no_error.
Qed.

End totals.

(** C7 as stated fails: Chelan passes the filter, the only feature has
    another GEOID, and the run reports nothing: the map holds the
    choropleth and the layer control only, and the page holds the usual
    elements and no message about the missing geometry. *)
Lemma geometry_lookup_counterexample :
  chelan ∈ filtered_df [chelan] sample_sidebar ∧
  matching_feature chelan [mkFeature "53033" None None] = None ∧
  dashboard (sorter := merge_sorter) [chelan] [mkFeature "53033" None None]
            None sample_sidebar =
    [ SidebarInfo 1 1;
      Metric "High Risk Counties" (Count 1);
      Metric "FEMA Fire Disasters" (Count 211);
      Metric "WUI Population" (Millions 20000);
      Metric "High WUI Risk" (MillionsPct 5000 20000);
      Caption (caption sample_sidebar);
      FoliumStatic
        [ ChoroplethLayer
            {| geo_data := [mkFeature "53033" None None];
               data := [(53007, Qmake 72 1)];
               key_on := "feature.properties.GEOID";
               fill_color := "YlOrRd";
               ch_fill_opacity := Qmake 7 10;
               nan_fill_color := "lightgray" |};
          LayerControl ];
      PlotlyPie [("High", 1%nat)];
      PlotlyBar [("Warming & Drying", 1%nat)];
      Dataframe (display_df [chelan] None);
      DownloadButton [chelan] ].
Proof.
  split_and!; [|reflexivity..].
  apply (bool_decide_unpack _). by vm_compute.
Qed.

(** ** The clustered disaster layer *)

Section cluster.
Context {sorter : Sorter}.

Lemma recent_fires_or_older (county_fema : list DisasterRow) (d : DisasterRow) :
  d ∈ county_fema →
  d ∈ recent_fires county_fema ∨
  ∀ e, e ∈ recent_fires county_fema →
       ts_le (declarationDate d) (declarationDate e).
Proof.
  intros Hd. unfold recent_fires, df_head.
  pose proof (sort_values_StronglySorted date_desc _ _ county_fema) as Hsorted.
  rewrite <-(sort_values_Permutation date_desc county_fema) in Hd.
  rewrite <-(take_drop 3 (sort_values date_desc county_fema)) in Hd, Hsorted.
  apply elem_of_app in Hd as [Hd|Hd]; [by left|right].
  intros e He.
  by apply (StronglySorted_app_1_elem_of _ _ _ e d) in Hsorted.
Qed.

(** C8: the map has a marker cluster exactly when the checkbox is set
    and the Disaster table is loaded; the cluster then holds, in table
    order, one marker (position, title, county, date, disaster number,
    red warning icon) for each row whose declaration year lies in the
    selected range, both bounds included, and whose latitude and
    longitude are both present.  A row without a coordinate is left out
    of the cluster.  The county popups do not look at coordinates: the
    count is the number of all rows with the county's name, and the
    fire list names min(3, count) of them, every row of the county
    being either named or no more recent than each named one. *)
Theorem cluster_layer_contents (df : list CountyRow) (geojson : list Feature)
    (fema_data : option (list DisasterRow)) (sb : Sidebar) :
  (∀ k, MarkerCluster k ∈ build_map df geojson fema_data sb ↔
        show_fema_markers sb = true ∧
        ∃ fema, fema_data = Some fema ∧
          k = (λ d, {| dm_location := (lat d, lon d);
                       dm_title := declarationTitle d;
                       dm_county := fema_County d;
                       dm_date := strftime_Ymd (declarationDate d);
                       dm_number := disasterNumber d;
                       dm_tooltip := declarationTitle d;
                       dm_icon := ("red", "warning-sign") |})
              <$> filter (λ d, (is_Some (lat d) ∧ is_Some (lon d)) ∧
                               (fema_year_range sb).1 ≤ year (declarationDate d) ∧
                               year (declarationDate d) ≤ (fema_year_range sb).2)
                         fema) ∧
  (∀ (fema : list DisasterRow) d,
     d ∈ fema → lat d = None ∨ lon d = None →
     d ∉ filter (λ d, (is_Some (lat d) ∧ is_Some (lon d)) ∧
                      (fema_year_range sb).1 ≤ year (declarationDate d) ∧
                      year (declarationDate d) ≤ (fema_year_range sb).2)
                fema) ∧
  (∀ fema c,
     fema_data = Some fema →
     InfoMarker c ∈ build_map df geojson fema_data sb →
     ∃ row listed,
       row ∈ filtered_df df sb ∧ cm_County c = County row ∧
       fema_count_county c =
         length (filter (λ d, fema_County d = County row) fema) ∧
       fires_list c =
         String.concat "<br>"
           ((λ f, "• " +:+ declarationTitle f +:+ " (" +:+
                  pretty (year (declarationDate f)) +:+ ")") <$> listed) ∧
       length listed = (3 `min` fema_count_county c)%nat ∧
       listed ⊆+ filter (λ d, fema_County d = County row) fema ∧
       ∀ d, d ∈ fema → fema_County d = County row →
            d ∈ listed ∨
            ∀ e, e ∈ listed → ts_le (declarationDate d) (declarationDate e)).
Proof.
  split_and!.
  - intros k. rewrite <-elem_of_marker_clusters, marker_clusters_build_map.
    destruct (show_fema_markers sb), fema_data as [fema|];
      rewrite ?list_elem_of_singleton, ?elem_of_nil.
    + rewrite fema_filtered_conj.
      split; [intros ->; eauto|by intros [_ (? & [= <-] & ->)]].
    + split; [done|by intros [_ (? & [=] & _)]].
    + split; [done|by intros [[=] _]].
    + split; [done|by intros [[=] _]].
  - intros fema d _ Hmissing [[[Hlat Hlon] _] _]%list_elem_of_filter.
    destruct Hmissing as [Hnone|Hnone]; rewrite Hnone in *;
      by eapply is_Some_None.
  - intros fema c -> (row & feature & Hrow & _ & ->)%info_marker_inv.
    exists row, (recent_fires (county_fema fema row)). simpl.
    split_and!; [done..| | |].
    + unfold recent_fires, df_head.
      by rewrite length_take, sort_values_Permutation.
    + apply head_sorted_submseteq.
    + intros d Hd Hcounty. apply recent_fires_or_older.
      unfold county_fema. by apply list_elem_of_filter.
Qed.

End cluster.

(** ** The geometry join *)

(** *** Number of digits of [str(int(...))] *)









Section join.
Context {sorter : Sorter}.





End join.

(** Outside the codes of the theorem: 1001, written with five digits, is
    "01001"; the marker lookup compares with "1001" and finds nothing. *)
Example leading_zero_code :
  let row := mkCountyRow 1001 "Autauga" 58000 9000 (Qmake 15 1) (Qmake 40 1)
                         "Moderate" "Stable" in
  let geojson := [mkFeature "01001" None None] in
  zero_padded_fips (county_fips row) = "01001" ∧
  pretty (county_fips row) = "1001" ∧
  matching_feature row geojson = None ∧
  add_county_popup (sorter := merge_sorter) None row geojson [] = [].
Proof. split_and!; reflexivity. Qed.

(** ** The histograms *)

Lemma elem_of_unique (v : string) (l : list string) : v ∈ unique l ↔ v ∈ l.
Proof.
  induction l as [|x l IH]; [done|]. simpl.
  rewrite !elem_of_cons, list_elem_of_filter, IH.
  destruct (decide (v = x)); tauto.
Qed.

Lemma NoDup_unique (l : list string) : NoDup (unique l).
Proof.
  induction l as [|x l IH]; simpl; constructor.
  - rewrite list_elem_of_filter. tauto.
  - by apply NoDup_filter.
Qed.

Lemma occurrences_pos (v : string) (l : list string) :
  (0 < occurrences v l)%nat ↔ v ∈ l.
Proof.
  unfold occurrences. induction l as [|x l IH].
  - simpl. rewrite elem_of_nil. lia.
  - rewrite filter_cons, elem_of_cons.
    destruct (decide (x = v)) as [->|Hne]; simpl; [intuition lia|].
    rewrite IH. intuition congruence.
Qed.

Lemma occurrences_fmap {A} (f : A → string) (v : string) (l : list A) :
  occurrences v (f <$> l) = length (filter (λ r, f r = v) l).
Proof.
  unfold occurrences. induction l as [|x l IH]; [done|].
  rewrite fmap_cons, !filter_cons.
  destruct (decide (f x = v)); simpl; by rewrite IH.
Qed.

Section histograms.
Context {sorter : Sorter}.

Lemma value_counts_keys (l : list string) :
  (value_counts l).*1 ≡ₚ unique l.
Proof.
  unfold value_counts. rewrite sort_values_Permutation.
  rewrite <-list_fmap_compose. by rewrite list_fmap_id.
Qed.

Lemma elem_of_value_counts (l : list string) (v : string) (n : nat) :
  (v, n) ∈ value_counts l ↔ v ∈ l ∧ n = occurrences v l.
Proof.
  unfold value_counts. rewrite sort_values_Permutation.
  rewrite list_elem_of_fmap. setoid_rewrite elem_of_unique. split.
  - intros (w & [= -> ->] & Hw). done.
  - intros [Hv ->]. by exists v.
Qed.

Lemma column_histogram {A} (f : A → string) (l : list A) :
  NoDup (value_counts (f <$> l)).*1 ∧
  (∀ v, v ∈ (value_counts (f <$> l)).*1 ↔ ∃ r, r ∈ l ∧ f r = v) ∧
  (∀ v n, (v, n) ∈ value_counts (f <$> l) ↔
          (0 < n)%nat ∧ n = length (filter (λ r, f r = v) l)) ∧
  (∀ v, (v, 0%nat) ∉ value_counts (f <$> l)).
Proof.
  assert (∀ v n, (v, n) ∈ value_counts (f <$> l) ↔
          (0 < n)%nat ∧ n = length (filter (λ r, f r = v) l)) as Hcount.
  { intros v n. rewrite elem_of_value_counts, <-occurrences_fmap.
    split; [intros [Hv ->]|intros [Hn ->]]; split; try done;
      by apply occurrences_pos. }
  split_and!; [| |done|].
  - rewrite value_counts_keys. apply NoDup_unique.
  - intros v. rewrite value_counts_keys, elem_of_unique, list_elem_of_fmap.
    split; intros (r & ? & ?); by exists r.
  - intros v [Hpos _]%Hcount. lia.
Qed.

(** C10: the risk-category histogram and the climate-trend histogram
    each list every value that occurs in the filtered rows exactly once,
    paired with the number of filtered rows that have it, which is
    positive; a value that does not occur has no entry, and no entry has
    count zero. *)
Theorem histograms_positive_counts (filtered : list CountyRow) :
  (NoDup (risk_counts filtered).*1 ∧
   (∀ v, v ∈ (risk_counts filtered).*1 ↔
         ∃ r, r ∈ filtered ∧ risk_category r = v) ∧
   (∀ v n, (v, n) ∈ risk_counts filtered ↔
           (0 < n)%nat ∧
           n = length (filter (λ r, risk_category r = v) filtered)) ∧
   (∀ v, (v, 0%nat) ∉ risk_counts filtered)) ∧
  (NoDup (trend_counts filtered).*1 ∧
   (∀ v, v ∈ (trend_counts filtered).*1 ↔
         ∃ r, r ∈ filtered ∧ climate_trend r = v) ∧
   (∀ v n, (v, n) ∈ trend_counts filtered ↔
           (0 < n)%nat ∧
           n = length (filter (λ r, climate_trend r = v) filtered)) ∧
   (∀ v, (v, 0%nat) ∉ trend_counts filtered)).
Proof. split; apply column_histogram. Qed.

End histograms.

(** ** The properties on the sample data *)

(** The year range 2015-2024 narrows 1990-2024; on the sample table the
    cluster shrinks from two points to one. *)
Lemma county_total_all_time_witness :
  (1990 ≤ 2015 ∧ 2024 ≤ 2024) ∧
  (length (disaster_marker <$> fema_filtered sample_fema (2015%Z, 2024%Z)) ≤
   length (disaster_marker <$> fema_filtered sample_fema (1990%Z, 2024%Z)))%nat.
Proof.
  split; [lia|].
  apply (proj2 (proj2 (proj2 (county_total_all_time (sorter := merge_sorter)
                                [chelan; king] [chelan_feature] sample_fema
                                sample_sidebar)))
           (1990, 2024) (2015, 2024)).
  - simpl. lia.
  - simpl. lia.
  - vm_compute. apply list_elem_of_further, list_elem_of_here.
  - vm_compute. apply list_elem_of_further, list_elem_of_here.
Defined.

(** Chelan against a feature list that only has King's GEOID. *)
Lemma geometry_lookup_failure_silent_witness :
  (∀ feature, feature ∈ [mkFeature "53033" None None] →
              GEOID feature ≠ pretty (county_fips chelan)) ∧
  (∀ m, add_county_popup (sorter := merge_sorter) (Some sample_fema) chelan
          [mkFeature "53033" None None] m = m).
Proof.
  assert (∀ feature, feature ∈ [mkFeature "53033" None None] →
                     GEOID feature ≠ pretty (county_fips chelan)) as Hno.
  { intros feature ->%list_elem_of_singleton. vm_compute. discriminate. }
  split; [exact Hno|].
  exact (proj1 (geometry_lookup_failure_silent (sorter := merge_sorter)
                  (Some sample_fema) [mkFeature "53033" None None] chelan Hno)).
Defined.

(** The Apple Acres fire has no coordinates: it is not a point of the
    cluster, and Chelan's popup counts it and names it first. *)
Lemma cluster_layer_contents_witness :
  let c := county_marker (sorter := merge_sorter) (Some sample_fema) chelan
                         chelan_feature in
  (apple_fire ∈ sample_fema ∧ (lat apple_fire = None ∨ lon apple_fire = None) ∧
   InfoMarker c ∈ build_map (sorter := merge_sorter) [chelan] [chelan_feature]
                    (Some sample_fema) sample_sidebar) ∧
  (apple_fire ∉
     filter (λ d, (is_Some (lat d) ∧ is_Some (lon d)) ∧
                  (fema_year_range sample_sidebar).1 ≤ year (declarationDate d) ∧
                  year (declarationDate d) ≤ (fema_year_range sample_sidebar).2)
            sample_fema) ∧
  fema_count_county c = 2%nat ∧
  fires_list c = "• APPLE ACRES FIRE (2020)<br>• TYEE CREEK FIRE (1994)" ∧
  ∃ row listed,
    row ∈ filtered_df [chelan] sample_sidebar ∧ cm_County c = County row ∧
    fema_count_county c =
      length (filter (λ d, fema_County d = County row) sample_fema) ∧
    fires_list c =
      String.concat "<br>"
        ((λ f, "• " +:+ declarationTitle f +:+ " (" +:+
               pretty (year (declarationDate f)) +:+ ")") <$> listed) ∧
    length listed = (3 `min` fema_count_county c)%nat ∧
    listed ⊆+ filter (λ d, fema_County d = County row) sample_fema ∧
    ∀ d, d ∈ sample_fema → fema_County d = County row →
         d ∈ listed ∨
         ∀ e, e ∈ listed → ts_le (declarationDate d) (declarationDate e).
Proof.
  intros c.
  assert (apple_fire ∈ sample_fema) as Hin
    by apply list_elem_of_further, list_elem_of_here.
  assert (InfoMarker c ∈ build_map (sorter := merge_sorter) [chelan]
                           [chelan_feature] (Some sample_fema) sample_sidebar)
    as Hc by (vm_compute; apply list_elem_of_further, list_elem_of_further,
                list_elem_of_here).
  split; [split_and!; [exact Hin|left; reflexivity|exact Hc]|].
  split_and!; [|reflexivity|reflexivity|].
  - exact (proj1 (proj2 (cluster_layer_contents (sorter := merge_sorter)
                           [chelan] [chelan_feature] (Some sample_fema)
                           sample_sidebar))
             sample_fema apple_fire Hin (or_introl eq_refl)).
  - exact (proj2 (proj2 (cluster_layer_contents (sorter := merge_sorter)
                           [chelan] [chelan_feature] (Some sample_fema)
                           sample_sidebar))
             sample_fema c eq_refl Hc).
Defined.


(** A full run: one county with its feature, the sample Disaster table,
    the range 2015-2024.  The cluster has the one located disaster of
    the range; Chelan's popup counts both of its disasters, also the one
    before 2015 and the one without coordinates, newest first. *)
Example sample_map :
  build_map (sorter := merge_sorter) [chelan] [chelan_feature]
            (Some sample_fema) sample_sidebar =
    [ ChoroplethLayer
        {| geo_data := [chelan_feature];
           data := [(53007, Qmake 72 1)];
           key_on := "feature.properties.GEOID";
           fill_color := "YlOrRd";
           ch_fill_opacity := Qmake 7 10;
           nan_fill_color := "lightgray" |};
      MarkerCluster
        [ {| dm_location := (Some (Qmake 484 10), Some (Qmake (-1195) 10));
             dm_title := "COLD SPRINGS FIRE";
             dm_county := "Okanogan";
             dm_date := "2020-09-07";
             dm_number := 5339;
             dm_tooltip := "COLD SPRINGS FIRE";
             dm_icon := ("red", "warning-sign") |} ];
      InfoMarker
        {| cm_location := (Qmake 479 10, Qmake (-1206) 10);
           cm_County := "Chelan";
           cm_risk_score := Qmake 72 1;
           cm_risk_category := "High";
           cm_climate_trend := "Warming & Drying";
           fema_count_county := 2;
           cm_population := 20000;
           cm_population_at_risk := 5000;
           cm_wui_exposure_pct := Qmake 25 1;
           fires_list :=
             "• APPLE ACRES FIRE (2020)<br>• TYEE CREEK FIRE (1994)";
           cm_icon_color := "darkred" |};
      LayerControl ].
Proof. reflexivity. Qed.

(** * Further properties of the script *)

(** ** More on the filter *)

Lemma filter_all {A} (P : A → Prop) `{!∀ x, Decision (P x)} (l : list A) :
  Forall P l → filter P l = l.
Proof.
  induction 1 as [|x l HP _ IH]; [done|].
  by rewrite filter_cons_True, IH.
Qed.

Lemma filter_none {A} (P : A → Prop) `{!∀ x, Decision (P x)} (l : list A) :
  (∀ x, x ∈ l → ¬ P x) → filter P l = [].
Proof.
  intros Hno. induction l as [|x l IH]; [done|].
  rewrite filter_cons_False by (apply Hno; left).
  apply IH. intros y Hy. apply Hno. by right.
Qed.

(** X1: with both selectors at "All" and a population floor that no
    county falls below (the widgets' initial state, floor 0), the filter
    keeps the whole table, in order. *)
Theorem filter_defaults_show_all (df : list CountyRow) (sb : Sidebar) :
  selected_risk sb = "All" → selected_trend sb = "All" →
  Forall (λ r, min_population sb ≤ population r) df →
  filtered_df df sb = df.
Proof.
  intros Hrisk Htrend Hpop. rewrite filtered_df_filter.
  apply filter_all. eapply Forall_impl; [exact Hpop|].
  intros r Hr. unfold passes. rewrite Hrisk, Htrend. by split_and!.
Qed.

Lemma filter_defaults_show_all_witness :
  (selected_risk sample_sidebar = "All" ∧ selected_trend sample_sidebar = "All" ∧
   Forall (λ r, min_population sample_sidebar ≤ population r) [chelan; king]) ∧
  filtered_df [chelan; king] sample_sidebar = [chelan; king].
Proof.
  assert (Forall (λ r, min_population sample_sidebar ≤ population r)
                 [chelan; king]) as Hpop
    by (repeat constructor; simpl; lia).
  split; [by split_and!|].
  exact (filter_defaults_show_all [chelan; king] sample_sidebar
           eq_refl eq_refl Hpop).
Defined.

(** X2: filtering twice with the same sidebar values changes nothing,
    and filtering with two sets of sidebar values gives the same rows in
    either order. *)
Theorem filter_idempotent_commutes (df : list CountyRow) (sb sb' : Sidebar) :
  filtered_df (filtered_df df sb) sb = filtered_df df sb ∧
  filtered_df (filtered_df df sb) sb' = filtered_df (filtered_df df sb') sb.
Proof.
  rewrite !filtered_df_filter, !list_filter_filter.
  split; apply list_filter_iff; intros r; tauto.
Qed.

(** X3: with the two selectors unchanged, raising the population floor
    only removes rows: the new result is a sub-list of the old one. *)
Theorem filter_min_population_antitone (df : list CountyRow)
    (sb sb' : Sidebar) :
  selected_risk sb' = selected_risk sb →
  selected_trend sb' = selected_trend sb →
  min_population sb ≤ min_population sb' →
  filtered_df df sb' `sublist_of` filtered_df df sb.
Proof.
  intros Hrisk Htrend Hmin. rewrite !filtered_df_filter.
  rewrite <-(list_filter_filter_l (passes sb') (passes sb)).
  - apply sublist_filter.
  - unfold passes. rewrite Hrisk, Htrend. intros r (? & ? & ?).
    split_and!; [done..|lia].
Qed.

Lemma filter_min_population_antitone_witness :
  (selected_risk populous_sidebar = selected_risk sample_sidebar ∧
   selected_trend populous_sidebar = selected_trend sample_sidebar ∧
   min_population sample_sidebar ≤ min_population populous_sidebar) ∧
  filtered_df [chelan; king] populous_sidebar
    `sublist_of` filtered_df [chelan; king] sample_sidebar.
Proof.
  assert (min_population sample_sidebar ≤ min_population populous_sidebar)
    as Hmin by (simpl; lia).
  split; [by split_and!|].
  exact (filter_min_population_antitone [chelan; king] sample_sidebar
           populous_sidebar eq_refl eq_refl Hmin).
Defined.

(** X4: the filter returns no row when every county is below the
    population floor, and when a category or a trend other than "All"
    is selected that no county has. *)
Theorem filter_empty (df : list CountyRow) (sb : Sidebar) :
  (∀ r, r ∈ df → population r < min_population sb) ∨
  (selected_risk sb ≠ "All" ∧
   ∀ r, r ∈ df → risk_category r ≠ selected_risk sb) ∨
  (selected_trend sb ≠ "All" ∧
   ∀ r, r ∈ df → climate_trend r ≠ selected_trend sb) →
  filtered_df df sb = [].
Proof.
  intros Hcase. rewrite filtered_df_filter. apply filter_none.
  intros r Hr (Hrisk & Htrend & Hpop).
  destruct Hcase as [Hlow|[[Hsel Hno]|[Hsel Hno]]].
  - specialize (Hlow r Hr). lia.
  - by apply (Hno r Hr), Hrisk.
  - by apply (Hno r Hr), Htrend.
Qed.

Lemma filter_empty_witness :
  (∀ r, r ∈ [chelan; king] →
        population r < min_population (mkSidebar "All" "All" 200000 true (2015, 2024))) ∧
  filtered_df [chelan; king] (mkSidebar "All" "All" 200000 true (2015, 2024)) = [].
Proof.
  assert (∀ r, r ∈ [chelan; king] →
            population r < min_population (mkSidebar "All" "All" 200000 true (2015, 2024)))
    as Hlow.
  { intros r Hr. apply elem_of_cons in Hr as [->|Hr]; [simpl; lia|].
    apply list_elem_of_singleton in Hr as ->. simpl. lia. }
  split; [exact Hlow|].
  exact (filter_empty [chelan; king] _ (or_introl Hlow)).
Defined.

(** ** More on the map *)

Section more_map.
Context {sorter : Sorter}.

Lemma sort_values_nil {A} (R : relation A) `{!RelDecision R} :
  sort_values R [] = [].
Proof. apply Permutation_nil_r. apply sort_values_Permutation. Qed.

Lemma value_counts_nil : value_counts [] = [].
Proof. unfold value_counts. simpl. apply sort_values_nil. Qed.

Lemma bind_county_popup fema_data geojson filtered :
  filtered ≫= county_popup fema_data geojson =
    InfoMarker <$> info_markers (filtered ≫= county_popup fema_data geojson).
Proof.
  induction filtered as [|row filtered IH]; [done|].
  rewrite bind_cons. unfold info_markers in *. rewrite omap_app, fmap_app, <-IH.
  f_equal. unfold county_popup. by destruct (matching_feature row geojson).
Qed.

(** X5: when the filter leaves no county (and the run got past the
    sidebar), the page is the sidebar line "0 of m", the metric cards,
    the banner if the Disaster table is loaded, the caption, a map whose
    choropleth has no data and which has no info marker, an empty pie
    chart, and then the uncaught [ValueError] of the bar chart: no bar
    chart, no ranked table and no download are shown. *)
Theorem empty_selection_stops (df : list CountyRow) (geojson : list Feature)
    (fema_data : option (list DisasterRow)) (sb : Sidebar) :
  starts df fema_data sb →
  filtered_df df sb = [] →
  dashboard df geojson fema_data sb =
    [SidebarInfo 0 (length df)]
    ++ (uncurry Metric <$> metrics_row df fema_data)
    ++ match fema_data with Some fema => [InfoBox (length fema)] | None => [] end
    ++ [Caption (caption sb);
        FoliumStatic (build_map df geojson fema_data sb);
        PlotlyPie [];
        Uncaught "ValueError"] ∧
  info_markers (build_map df geojson fema_data sb) = [] ∧
  (∃ c, ChoroplethLayer c ∈ build_map df geojson fema_data sb ∧ data c = []).
Proof.
  intros Hs Hempty. split_and!.
  - rewrite dashboard_starts by done. unfold upper_page, lower_page.
    rewrite Hempty. unfold risk_counts. rewrite fmap_nil, value_counts_nil.
    by rewrite <-!(assoc_L (++)).
  - by rewrite info_markers_build_map, Hempty.
  - eexists. rewrite build_map_shape, Hempty. split; [apply list_elem_of_here|done].
Qed.

(** X6: the layers of the map come in a fixed order: the choropleth
    first, then the marker cluster if there is one (never more than
    one), then the county info markers, then the layer control. *)
Theorem map_layer_order (df : list CountyRow) (geojson : list Feature)
    (fema_data : option (list DisasterRow)) (sb : Sidebar) :
  ∃ c,
    build_map df geojson fema_data sb =
      [ChoroplethLayer c]
      ++ (MarkerCluster <$> marker_clusters (build_map df geojson fema_data sb))
      ++ (InfoMarker <$> info_markers (build_map df geojson fema_data sb))
      ++ [LayerControl] ∧
    (length (marker_clusters (build_map df geojson fema_data sb)) ≤ 1)%nat ∧
    data c = (λ r, (county_fips r, climate_fire_risk_score r))
               <$> filtered_df df sb ∧
    fill_color c = color_scheme sb ∧ ch_fill_opacity c = fill_opacity sb.
Proof.
  eexists. split_and!; [|
    rewrite marker_clusters_build_map;
    destruct (show_fema_markers sb), fema_data; simpl; lia| |..].
  - rewrite marker_clusters_build_map, info_markers_build_map.
    rewrite <-info_markers_bind, <-bind_county_popup.
    rewrite build_map_shape at 1. do 2 f_equal.
    unfold add_fema_markers.
    by destruct (show_fema_markers sb), fema_data.
  - done.
  - done.
  - done.
Qed.

(** X7: the icon of a county info marker depends on the county's risk
    category alone: dark red exactly for "High", orange exactly for
    "Moderate", green for every other category ("Low", and "Critical"
    as well). *)
Theorem info_marker_icon_color (df : list CountyRow) (geojson : list Feature)
    (fema_data : option (list DisasterRow)) (sb : Sidebar) (c : CountyMarker) :
  InfoMarker c ∈ build_map df geojson fema_data sb →
  (cm_icon_color c = "darkred" ↔ cm_risk_category c = "High") ∧
  (cm_icon_color c = "orange" ↔ cm_risk_category c = "Moderate") ∧
  (cm_icon_color c = "green" ↔
     cm_risk_category c ≠ "High" ∧ cm_risk_category c ≠ "Moderate").
Proof.
  intros (row & feature & _ & _ & ->)%info_marker_inv. simpl.
  unfold icon_color.
  destruct (decide (risk_category row = "High")) as [Hhigh|Hhigh];
    [|destruct (decide (risk_category row = "Moderate")) as [Hmod|Hmod]].
  - rewrite Hhigh. split_and!; split; try done; by intros [??].
  - rewrite Hmod. split_and!; split; try done; by intros [??].
  - split_and!; split; done.
Qed.

End more_map.

(** Membership in a list given in full. *)
Ltac in_list :=
  vm_compute; repeat first [apply list_elem_of_here|apply list_elem_of_further].

Lemma empty_selection_stops_witness :
  (starts [chelan; king] None (mkSidebar "High" "Stable" 0 true (2015, 2024)) ∧
   filtered_df [chelan; king] (mkSidebar "High" "Stable" 0 true (2015, 2024)) = []) ∧
  dashboard (sorter := merge_sorter) [chelan; king] [chelan_feature] None
            (mkSidebar "High" "Stable" 0 true (2015, 2024)) =
    [ SidebarInfo 0 2;
      Metric "High Risk Counties" (Count 1);
      Metric "FEMA Fire Disasters" (Count 211);
      Metric "WUI Population" (Millions 120000);
      Metric "High WUI Risk" (MillionsPct 25000 120000);
      Caption (caption (mkSidebar "High" "Stable" 0 true (2015, 2024)));
      FoliumStatic
        (build_map (sorter := merge_sorter) [chelan; king] [chelan_feature] None
                   (mkSidebar "High" "Stable" 0 true (2015, 2024)));
      PlotlyPie [];
      Uncaught "ValueError" ].
Proof.
  assert (starts [chelan; king] None
                 (mkSidebar "High" "Stable" 0 true (2015, 2024))) as Hs
    by by split.
  split; [by split|].
  exact (proj1 (empty_selection_stops (sorter := merge_sorter) [chelan; king]
                  [chelan_feature] None
                  (mkSidebar "High" "Stable" 0 true (2015, 2024)) Hs eq_refl)).
Defined.

Lemma info_marker_icon_color_witness :
  let c := county_marker (sorter := merge_sorter) (Some sample_fema) chelan
                         chelan_feature in
  InfoMarker c ∈ build_map (sorter := merge_sorter) [chelan] [chelan_feature]
                   (Some sample_fema) sample_sidebar ∧
  (cm_icon_color c = "darkred" ↔ cm_risk_category c = "High").
Proof.
  intros c.
  assert (InfoMarker c ∈ build_map (sorter := merge_sorter) [chelan]
                           [chelan_feature] (Some sample_fema) sample_sidebar)
    as Hin by in_list.
  split; [exact Hin|].
  exact (proj1 (info_marker_icon_color (sorter := merge_sorter) [chelan]
                  [chelan_feature] (Some sample_fema) sample_sidebar c Hin)).
Defined.

Section markers.
Context {sorter : Sorter}.

(** X8: the info markers follow the filtered rows: their county names
    are a sub-list of the filtered county names (at most one marker per
    filtered row, in row order), and when every filtered county has a
    feature with its code there is exactly one marker per row. *)
Theorem info_markers_follow_rows (df : list CountyRow) (geojson : list Feature)
    (fema_data : option (list DisasterRow)) (sb : Sidebar) :
  cm_County <$> info_markers (build_map df geojson fema_data sb)
    `sublist_of` County <$> filtered_df df sb ∧
  ((∀ row, row ∈ filtered_df df sb →
      ∃ feature, feature ∈ geojson ∧ GEOID feature = pretty (county_fips row)) →
   cm_County <$> info_markers (build_map df geojson fema_data sb)
     = County <$> filtered_df df sb).
Proof.
  rewrite info_markers_build_map. split.
  - induction (filtered_df df sb) as [|row l IH]; [done|]. simpl.
    destruct (matching_feature row geojson); simpl;
      [by apply sublist_skip|by apply sublist_cons].
  - intros Hall. induction (filtered_df df sb) as [|row l IH]; [done|]. simpl.
    destruct (matching_feature row geojson) as [feature|] eqn:Hm.
    + simpl. f_equal. apply IH. intros r Hr. apply Hall. by right.
    + rewrite matching_feature_None in Hm.
      destruct (Hall row) as (feature & Hin & Heq); [left|].
      by destruct (Hm feature Hin).
Qed.

(** X9: the feature loop stops at the first feature whose GEOID equals
    the county's code: the marker is built from that feature, and
    features after it, matching or not, are not looked at. *)
Theorem first_matching_feature_wins (fema_data : option (list DisasterRow))
    (row : CountyRow) (before after : list Feature) (feature : Feature)
    (m : list MapChild) :
  (∀ f, f ∈ before → GEOID f ≠ pretty (county_fips row)) →
  GEOID feature = pretty (county_fips row) →
  add_county_popup fema_data row (before ++ feature :: after) m =
    m ++ [InfoMarker (county_marker fema_data row feature)].
Proof.
  intros Hbefore Hfeature.
  induction before as [|f before IH]; simpl.
  - by rewrite decide_True.
  - rewrite decide_False by (apply Hbefore; left).
    apply IH. intros g Hg. apply Hbefore. by right.
Qed.

(** X10: every marker of the cluster has both coordinates and the red
    warning icon, and the cluster never has more points than the
    Disaster table has rows (the number on the FEMA card). *)
Theorem cluster_markers_located (df : list CountyRow) (geojson : list Feature)
    (fema_data : option (list DisasterRow)) (sb : Sidebar)
    (k : list DisasterMarker) :
  MarkerCluster k ∈ build_map df geojson fema_data sb →
  (∀ mk, mk ∈ k →
     is_Some (dm_location mk).1 ∧ is_Some (dm_location mk).2 ∧
     dm_icon mk = ("red", "warning-sign")) ∧
  (length k ≤ fema_count fema_data)%nat.
Proof.
  rewrite <-elem_of_marker_clusters, marker_clusters_build_map.
  destruct (show_fema_markers sb), fema_data as [fema|];
    try by intros ?%elem_of_nil.
  intros ->%list_elem_of_singleton. split.
  - intros mk (d & -> & Hd)%list_elem_of_fmap.
    unfold fema_filtered in Hd. apply list_elem_of_filter in Hd as [[??] _].
    by split_and!.
  - rewrite length_fmap. unfold fema_filtered. simpl.
    etrans; [apply length_filter|apply length_filter].
Qed.

(** X11: a year range whose lower bound is above its upper bound
    selects nothing: with the checkbox set and the table loaded, the
    map then has a cluster without points. *)
Theorem inverted_year_range_empty_cluster (df : list CountyRow)
    (geojson : list Feature) (fema : list DisasterRow) (sb : Sidebar) :
  show_fema_markers sb = true →
  (fema_year_range sb).2 < (fema_year_range sb).1 →
  MarkerCluster [] ∈ build_map df geojson (Some fema) sb.
Proof.
  intros Hshow Hinv.
  rewrite <-elem_of_marker_clusters, marker_clusters_build_map, Hshow.
  assert (fema_filtered fema (fema_year_range sb) = []) as ->; [|by left].
  unfold fema_filtered. rewrite (filter_none (in_year_range _)); [done|].
  intros d _ [Hlo Hhi]. lia.
Qed.

End markers.

Lemma info_markers_follow_rows_witness :
  (∀ row, row ∈ filtered_df [chelan] sample_sidebar →
     ∃ feature, feature ∈ [chelan_feature] ∧
                GEOID feature = pretty (county_fips row)) ∧
  cm_County <$> info_markers (build_map (sorter := merge_sorter) [chelan]
                                [chelan_feature] None sample_sidebar)
    = County <$> filtered_df [chelan] sample_sidebar.
Proof.
  assert (∀ row, row ∈ filtered_df [chelan] sample_sidebar →
            ∃ feature, feature ∈ [chelan_feature] ∧
                       GEOID feature = pretty (county_fips row)) as Hall.
  { intros row Hrow. exists chelan_feature. split; [by left|].
    change (filtered_df [chelan] sample_sidebar) with [chelan] in Hrow.
    by apply list_elem_of_singleton in Hrow as ->. }
  split; [exact Hall|].
  exact (proj2 (info_markers_follow_rows (sorter := merge_sorter) [chelan]
                  [chelan_feature] None sample_sidebar) Hall).
Defined.

Lemma first_matching_feature_wins_witness :
  ((∀ f, f ∈ [mkFeature "53033" None None] →
         GEOID f ≠ pretty (county_fips chelan)) ∧
   GEOID chelan_feature = pretty (county_fips chelan)) ∧
  add_county_popup (sorter := merge_sorter) None chelan
    ([mkFeature "53033" None None] ++
     chelan_feature :: [mkFeature "53007" None None]) [] =
    [] ++ [InfoMarker (county_marker (sorter := merge_sorter) None chelan
                                     chelan_feature)].
Proof.
  assert (∀ f, f ∈ [mkFeature "53033" None None] →
               GEOID f ≠ pretty (county_fips chelan)) as Hbefore.
  { intros f ->%list_elem_of_singleton. vm_compute. discriminate. }
  split; [split; [exact Hbefore|reflexivity]|].
  exact (first_matching_feature_wins (sorter := merge_sorter) None chelan
           [mkFeature "53033" None None] [mkFeature "53007" None None]
           chelan_feature [] Hbefore eq_refl).
Defined.

Lemma cluster_markers_located_witness :
  let k := disaster_marker <$> fema_filtered sample_fema (2015, 2024) in
  MarkerCluster k ∈ build_map (sorter := merge_sorter) [chelan] [chelan_feature]
                      (Some sample_fema) sample_sidebar ∧
  (length k ≤ fema_count (Some sample_fema))%nat.
Proof.
  intros k.
  assert (MarkerCluster k ∈ build_map (sorter := merge_sorter) [chelan]
                              [chelan_feature] (Some sample_fema) sample_sidebar)
    as Hin by in_list.
  split; [exact Hin|].
  exact (proj2 (cluster_markers_located (sorter := merge_sorter) [chelan]
                  [chelan_feature] (Some sample_fema) sample_sidebar k Hin)).
Defined.

Lemma inverted_year_range_empty_cluster_witness :
  (show_fema_markers (mkSidebar "All" "All" 0 true (2024, 2015)) = true ∧
   (fema_year_range (mkSidebar "All" "All" 0 true (2024, 2015))).2 <
   (fema_year_range (mkSidebar "All" "All" 0 true (2024, 2015))).1) ∧
  MarkerCluster [] ∈ build_map (sorter := merge_sorter) [chelan] [chelan_feature]
                       (Some sample_fema)
                       (mkSidebar "All" "All" 0 true (2024, 2015)).
Proof.
  assert ((fema_year_range (mkSidebar "All" "All" 0 true (2024, 2015))).2 <
          (fema_year_range (mkSidebar "All" "All" 0 true (2024, 2015))).1)
    as Hinv by (simpl; lia).
  split; [by split|].
  exact (inverted_year_range_empty_cluster (sorter := merge_sorter) [chelan]
           [chelan_feature] sample_fema
           (mkSidebar "All" "All" 0 true (2024, 2015)) eq_refl Hinv).
Defined.

(** ** More on the popups *)

Section more_popups.
Context {sorter : Sorter}.

Lemma join_fire_lines_not_degraded (fires : list DisasterRow) :
  join "<br>" (fire_line <$> fires) ≠ "Data not available".
Proof. destruct fires as [|d [|e fires]]; simpl; discriminate. Qed.

(** X12: the popup text "Data not available" stands for a missing
    Disaster table and nothing else: for every info marker of the map,
    the fire list is that text exactly when the table was not loaded.
    With the table loaded, a county without any disaster gets the count
    0 and an empty fire list. *)
Theorem degraded_text_iff_table_missing (df : list CountyRow)
    (geojson : list Feature) (fema_data : option (list DisasterRow))
    (sb : Sidebar) :
  (∀ c, InfoMarker c ∈ build_map df geojson fema_data sb →
        (fires_list c = "Data not available" ↔ fema_data = None)) ∧
  (∀ fema row,
     (∀ d, d ∈ fema → fema_County d ≠ County row) →
     county_history (Some fema) row = (0%nat, "")).
Proof.
  split.
  - intros c (row & feature & _ & _ & ->)%info_marker_inv. simpl.
    destruct fema_data as [fema|]; simpl; [|done].
    split; [|done]. intros Heq. by apply join_fire_lines_not_degraded in Heq.
  - intros fema row Hnone. unfold county_history, county_fema.
    rewrite (filter_none (λ d, fema_County d = County row)) by done.
    unfold recent_fires, df_head. by rewrite sort_values_nil.
Qed.

(** X13: the popup lists min(3, n) fires for a county with n disasters,
    and with at most three disasters it lists all of them. *)
Theorem recent_fires_length (county_fema : list DisasterRow) :
  length (recent_fires county_fema) = (3 `min` length county_fema)%nat ∧
  ((length county_fema ≤ 3)%nat → recent_fires county_fema ≡ₚ county_fema).
Proof.
  unfold recent_fires, df_head. split.
  - by rewrite length_take, sort_values_Permutation.
  - intros Hlen. rewrite take_ge; [apply sort_values_Permutation|].
    by rewrite sort_values_Permutation.
Qed.

(** X14: the listed fires are the most recent ones: the county's
    disasters split into the listed ones and the rest, and no disaster
    of the rest was declared after a listed one.  In particular the
    first listed fire is the latest of the county. *)
Theorem recent_fires_most_recent (county_fema : list DisasterRow) :
  (∃ rest, recent_fires county_fema ++ rest ≡ₚ county_fema ∧
     ∀ d e, d ∈ recent_fires county_fema → e ∈ rest →
            ts_le (declarationDate e) (declarationDate d)) ∧
  (∀ d others e, recent_fires county_fema = d :: others → e ∈ county_fema →
     ts_le (declarationDate e) (declarationDate d)).
Proof.
  pose proof (sort_values_StronglySorted date_desc _ _ county_fema) as Hsorted.
  pose proof (sort_values_Permutation date_desc county_fema) as Hperm.
  split.
  - exists (drop 3 (sort_values date_desc county_fema)).
    unfold recent_fires, df_head. rewrite take_drop. split; [done|].
    intros d e Hd He. rewrite <-(take_drop 3) in Hsorted.
    by apply (StronglySorted_app_1_elem_of _ _ _ d e) in Hsorted.
  - intros d others e Hrecent He. unfold recent_fires, df_head in Hrecent.
    rewrite <-Hperm in He.
    destruct (sort_values date_desc county_fema) as [|d' tl]; [done|].
    simpl in Hrecent. injection Hrecent as -> _.
    apply elem_of_cons in He as [->|He].
    + by destruct (total ts_le (declarationDate d) (declarationDate d)).
    + apply StronglySorted_cons in Hsorted as [Hd _].
      rewrite Forall_forall in Hd. by apply Hd.
Qed.

End more_popups.

Lemma degraded_text_iff_table_missing_witness :
  (∀ d, d ∈ sample_fema → fema_County d ≠ County king) ∧
  county_history (sorter := merge_sorter) (Some sample_fema) king = (0%nat, "").
Proof.
  assert (∀ d, d ∈ sample_fema → fema_County d ≠ County king) as Hnone.
  { intros d Hd. unfold sample_fema in Hd.
    repeat (apply elem_of_cons in Hd as [->|Hd]; [vm_compute; discriminate|]).
    by apply elem_of_nil in Hd. }
  split; [exact Hnone|].
  exact (proj2 (degraded_text_iff_table_missing (sorter := merge_sorter)
                  [king] [] (Some sample_fema) sample_sidebar)
           sample_fema king Hnone).
Defined.

Lemma recent_fires_length_witness :
  (length (county_fema sample_fema chelan) ≤ 3)%nat ∧
  recent_fires (sorter := merge_sorter) (county_fema sample_fema chelan)
    ≡ₚ county_fema sample_fema chelan.
Proof.
  assert (length (county_fema sample_fema chelan) ≤ 3)%nat as Hlen
    by (vm_compute; lia).
  split; [exact Hlen|].
  exact (proj2 (recent_fires_length (sorter := merge_sorter)
                  (county_fema sample_fema chelan)) Hlen).
Defined.

Lemma recent_fires_most_recent_witness :
  (recent_fires (sorter := merge_sorter) (county_fema sample_fema chelan)
     = apple_fire :: [tyee_fire] ∧
   tyee_fire ∈ county_fema sample_fema chelan) ∧
  ts_le (declarationDate tyee_fire) (declarationDate apple_fire).
Proof.
  assert (tyee_fire ∈ county_fema sample_fema chelan) as Hin by in_list.
  split; [split; [reflexivity|exact Hin]|].
  exact (proj2 (recent_fires_most_recent (sorter := merge_sorter)
                  (county_fema sample_fema chelan))
           apple_fire [tyee_fire] tyee_fire eq_refl Hin).
Defined.

(** ** The ranked table *)

Lemma groupby_size_default (fema : list DisasterRow) (c : string) :
  default 0%nat (groupby_size fema !! c) =
    length (filter (λ d, fema_County d = c) fema).
Proof.
  induction fema as [|d fema IH]; [done|].
  simpl. rewrite filter_cons, lookup_insert.
  destruct (decide (fema_County d = c)) as [->|Hne]; simpl; by rewrite ?IH.
Qed.

Lemma groupby_size_pos (fema : list DisasterRow) (c : string) (n : nat) :
  groupby_size fema !! c = Some n → (0 < n)%nat.
Proof.
  revert n. induction fema as [|d fema IH]; intros n; [done|].
  simpl. rewrite lookup_insert.
  destruct (decide (fema_County d = c)); [intros [= <-]; lia|apply IH].
Qed.

(** X15: the per-county disaster counts of the table ([groupby] and
    [size]) have an entry exactly for the county names that occur in
    the Disaster table, holding the number of rows with that name. *)
Theorem groupby_size_counts (fema : list DisasterRow) (c : string) :
  (∀ n, groupby_size fema !! c = Some n ↔
        (0 < n)%nat ∧ n = length (filter (λ d, fema_County d = c) fema)) ∧
  (groupby_size fema !! c = None ↔ ∀ d, d ∈ fema → fema_County d ≠ c).
Proof.
  pose proof (groupby_size_default fema c) as Hdef.
  pose proof (groupby_size_pos fema c) as Hpos.
  split.
  - intros n. destruct (groupby_size fema !! c) as [k|]; simpl in Hdef.
    + specialize (Hpos k eq_refl). split; [intros [= <-]; by split|].
      intros [_ ->]. by rewrite Hdef.
    + split; [done|]. intros [Hn ->]. lia.
  - destruct (groupby_size fema !! c) as [k|]; simpl in Hdef.
    + specialize (Hpos k eq_refl). split; [done|]. intros Hnone.
      rewrite (filter_none (λ d, fema_County d = c)) in Hdef by done.
      simpl in Hdef. lia.
    + split; [|done]. intros _ d Hd Hc.
      assert (d ∈ filter (λ d, fema_County d = c) fema) as Hin
        by by apply list_elem_of_filter.
      destruct (filter _ fema); [by apply elem_of_nil in Hin|done].
Qed.

Section table.
Context {sorter : Sorter}.

(** X16: with the Disaster table loaded, the table row of the i-th
    filtered county shows the rank i+1, the county's name, category and
    trend, its risk score and WUI share rounded to one decimal, its
    population at risk with thousands separators and, as federal
    disasters, the number of rows of the Disaster table with the
    county's name: the same number as the county's popup, 0 for a county
    without disasters. *)
Theorem display_row_matches_popup (filtered : list CountyRow)
    (fema : list DisasterRow) (i : nat) (row : CountyRow) :
  filtered !! i = Some row →
  rows (display_df filtered (Some fema)) !! i =
    Some {| Rank := S i;
            dr_County := County row;
            Risk_Score := round1 (climate_fire_risk_score row);
            Category := risk_category row;
            Climate_Trend := climate_trend row;
            Population_at_Risk := format_thousands (population_at_risk row);
            WUI_pct := round1 (wui_exposure_pct row);
            Federal_Disasters :=
              Some (length (filter (λ d, fema_County d = County row) fema)) |} ∧
  ∀ feature,
    fema_count_county (county_marker (Some fema) row feature) =
      length (filter (λ d, fema_County d = County row) fema).
Proof.
  intros Hrow. split; [|done]. simpl.
  rewrite list_lookup_imap, Hrow. simpl. unfold display_row.
  by rewrite groupby_size_default.
Qed.

(** X17: the table has one row per filtered county and the ranks are
    1, 2, ..., in the order of the filtered rows, with or without the
    Disaster table. *)
Theorem display_ranks (filtered : list CountyRow)
    (fema_data : option (list DisasterRow)) :
  Rank <$> rows (display_df filtered fema_data) = seq 1 (length filtered) ∧
  dr_County <$> rows (display_df filtered fema_data) = County <$> filtered.
Proof.
  split.
  - rewrite <-fmap_S_seq, <-(imap_seq_0 filtered S).
    destruct fema_data; simpl; rewrite fmap_imap; by apply imap_ext.
  - rewrite <-(imap_const County).
    destruct fema_data; simpl; rewrite fmap_imap; by apply imap_ext.
Qed.

End table.

Lemma display_row_matches_popup_witness :
  [chelan; king] !! 1%nat = Some king ∧
  rows (display_df [chelan; king] (Some sample_fema)) !! 1%nat =
    Some (mkDisplayRow 2 "King" (round1 (Qmake 30 1)) "Low" "Stable" "20,000"
                       (round1 (Qmake 20 1)) (Some 0%nat)).
Proof.
  split; [reflexivity|].
  exact (proj1 (display_row_matches_popup (sorter := merge_sorter)
                  [chelan; king] sample_fema 1 king eq_refl)).
Defined.

(** ** The charts *)

#[global] Instance count_desc_total : Total count_desc.
Proof. intros a b. unfold count_desc. lia. Qed.

#[global] Instance count_desc_trans : Transitive count_desc.
Proof. intros a b c. unfold count_desc. lia. Qed.

Lemma occurrences_cons (v x : string) (l : list string) :
  occurrences v (x :: l) =
    ((if decide (x = v) then 1 else 0) + occurrences v l)%nat.
Proof. unfold occurrences. rewrite filter_cons. by destruct (decide (x = v)). Qed.

Lemma sum_indicator_absent (x : string) (ks : list string) :
  x ∉ ks →
  sum_list_with (λ k, if decide (x = k) then 1%nat else 0%nat) ks = 0%nat.
Proof.
  induction ks as [|k ks IH]; [done|]. intros [Hne Hx]%not_elem_of_cons.
  simpl. rewrite decide_False by done. by apply IH.
Qed.

Lemma sum_indicator (x : string) (ks : list string) :
  NoDup ks → x ∈ ks →
  sum_list_with (λ k, if decide (x = k) then 1%nat else 0%nat) ks = 1%nat.
Proof.
  induction 1 as [|k ks Hk Hks IH]; intros Hx; [by apply elem_of_nil in Hx|].
  simpl. destruct (decide (x = k)) as [->|Hne].
  - by rewrite sum_indicator_absent.
  - apply elem_of_cons in Hx as [?|Hx]; [done|]. by apply IH.
Qed.

Lemma sum_occurrences (l ks : list string) :
  NoDup ks → (∀ x, x ∈ l → x ∈ ks) →
  sum_list_with (λ k, occurrences k l) ks = length l.
Proof.
  intros Hks. induction l as [|x l IH]; intros Hl.
  - clear. by induction ks as [|k ks IHks].
  - assert (sum_list_with (λ k, occurrences k (x :: l)) ks =
            (sum_list_with (λ k, if decide (x = k) then 1 else 0) ks
             + sum_list_with (λ k, occurrences k l) ks)%nat) as ->.
    { clear. induction ks as [|k ks IHks]; [done|]. simpl.
      rewrite IHks, occurrences_cons. lia. }
    rewrite sum_indicator; [|done|apply Hl; by left].
    rewrite IH; [done|]. intros y Hy. apply Hl. by right.
Qed.

Section charts.
Context {sorter : Sorter}.

Lemma value_counts_total (l : list string) :
  sum_list (value_counts l).*2 = length l.
Proof.
  unfold value_counts. rewrite sort_values_Permutation.
  rewrite <-list_fmap_compose.
  assert (∀ ks, sum_list ((snd ∘ (λ v, (v, occurrences v l))) <$> ks) =
                sum_list_with (λ k, occurrences k l) ks) as ->.
  { intros ks. induction ks as [|k ks IH]; [done|]. simpl. by f_equal. }
  apply sum_occurrences; [apply NoDup_unique|].
  intros x Hx. by apply elem_of_unique.
Qed.

(** X18: in both charts the counts add up to the number of filtered
    counties, and the entries come with the larger counts first. *)
Theorem chart_counts_total (filtered : list CountyRow) :
  sum_list (risk_counts filtered).*2 = length filtered ∧
  sum_list (trend_counts filtered).*2 = length filtered ∧
  StronglySorted (λ a b, (b.2 ≤ a.2)%nat) (risk_counts filtered) ∧
  StronglySorted (λ a b, (b.2 ≤ a.2)%nat) (trend_counts filtered).
Proof.
  unfold risk_counts, trend_counts. rewrite !value_counts_total, !length_fmap.
  split_and!; [done..| |];
    apply (sort_values_StronglySorted count_desc); apply _.
Qed.

End charts.

(** ** The page as a whole *)

Section whole_page.
Context {sorter : Sorter}.

(** X19: a missing county table or geometry file stops the run with the
    files-not-found message as the only output.  With both files
    present that message never appears, whether or not the disaster
    file exists, and the run is the pipeline's: it ends in an uncaught
    [ValueError] exactly when the county table is empty, the Disaster
    table is empty while the checkbox is set, or the selection is
    empty. *)
Theorem missing_required_file_stops (data_csv : option (list CountyRow))
    (geojson_file : option (list Feature))
    (fema_csv : option (list DisasterRow)) (sb : Sidebar) :
  (data_csv = None ∨ geojson_file = None →
   main data_csv geojson_file fema_csv sb = [ErrorBox files_not_found]) ∧
  ((∃ message, ErrorBox message ∈ main data_csv geojson_file fema_csv sb) ↔
   data_csv = None ∨ geojson_file = None) ∧
  (∀ df geojson, data_csv = Some df → geojson_file = Some geojson →
   main data_csv geojson_file fema_csv sb = dashboard df geojson fema_csv sb ∧
   (Uncaught "ValueError" ∈ main data_csv geojson_file fema_csv sb ↔
    df = [] ∨ (show_fema_markers sb = true ∧ fema_csv = Some []) ∨
    filtered_df df sb = [])).
Proof.
  unfold main. destruct data_csv as [df|], geojson_file as [geojson|].
  - split_and!.
    + by intros [?|?].
    + split; [|by intros [?|?]].
      intros [message Hin]. by apply dashboard_no_error in Hin.
    + intros ?? [= <-] [= <-]. split; [done|].
      rewrite dashboard_uncaught. unfold starts. split.
      * intros [_ [Hno|?]]; [|auto].
        destruct df as [|r df]; [by left|]. right. left.
        destruct (show_fema_markers sb); [|destruct Hno; by split].
        split; [done|].
        destruct fema_csv as [[|d fema]|]; [done|destruct Hno; by split..].
      * intros [->|[[Hshow ->]|?]]; (split; [done|]); auto.
        -- left. by intros [? _].
        -- left. intros [_ Hf]. by apply Hf.
  - split_and!; [done| |done]. split; [auto|]. intros _. eexists. by left.
  - split_and!; [done| |done]. split; [auto|]. intros _. eexists. by left.
  - split_and!; [done| |done]. split; [auto|]. intros _. eexists. by left.
Qed.

(** X20: the sidebar line "n of m counties shown" reports the number of
    filtered rows and the number of all rows, so n never exceeds m. *)
Theorem sidebar_info_counts (df : list CountyRow) (geojson : list Feature)
    (fema_data : option (list DisasterRow)) (sb : Sidebar)
    (shown total : nat) :
  SidebarInfo shown total ∈ dashboard df geojson fema_data sb →
  shown = length (filtered_df df sb) ∧ total = length df ∧
  (shown ≤ total)%nat.
Proof.
  intros Hin.
  assert (shown = length (filtered_df df sb) ∧ total = length df) as [-> ->].
  { apply elem_of_dashboard in Hin as [[_ ?]|[_ [Hin|Hin]]]; [done| |].
    - apply elem_of_upper_page in Hin
        as [?|[([label value] & _ & ?)|[(? & ? & ?)|[?|[?|?]]]]]; try done.
      by simplify_eq.
    - apply elem_of_lower_page in Hin as [[_ ?]|[_ [?|[?|?]]]]; done. }
  split_and!; [done..|].
  rewrite filtered_df_filter. apply length_filter.
Qed.

(** X21: the data-source banner is shown exactly when the Disaster
    table is loaded, and the number it states is the number on the FEMA
    card. *)
Theorem info_box_matches_fema_card (df : list CountyRow)
    (geojson : list Feature) (fema_data : option (list DisasterRow))
    (sb : Sidebar) (n : nat) :
  InfoBox n ∈ dashboard df geojson fema_data sb ↔
  (∃ fema, fema_data = Some fema ∧ n = length fema) ∧
  Metric "FEMA Fire Disasters" (Count n) ∈ dashboard df geojson fema_data sb.
Proof.
  assert (∀ k, Metric "FEMA Fire Disasters" (Count k)
               ∈ dashboard df geojson fema_data sb ↔
               starts df fema_data sb ∧ k = fema_count fema_data) as Hcard.
  { intros k. rewrite elem_of_dashboard, elem_of_upper_page, elem_of_lower_page.
    split.
    - intros [[_ ?]|[Hs [Hin|[[_ ?]|[_ [?|[?|?]]]]]]]; try done.
      split; [done|].
      destruct Hin as [?|[([label value] & Hin & Heq)|[(? & ? & ?)|[?|[?|?]]]]];
        try done.
      unfold metrics_row in Hin. simpl in Heq.
      repeat (apply elem_of_cons in Hin as [Hin|Hin]; [by simplify_eq|]).
      by apply elem_of_nil in Hin.
    - intros [Hs ->]. right. split; [done|]. left. right. left.
      exists ("FEMA Fire Disasters", Count (fema_count fema_data)).
      split; [|done]. unfold metrics_row.
      apply list_elem_of_further, list_elem_of_here. }
  rewrite Hcard, elem_of_dashboard, elem_of_upper_page, elem_of_lower_page.
  split.
  - intros [[_ ?]|[Hs [Hin|[[_ ?]|[_ [?|[?|?]]]]]]]; try done.
    destruct Hin as [?|[([label value] & _ & ?)|[(fema & -> & Heq)|[?|[?|?]]]]];
      try done.
    injection Heq as ->. split_and!; [by exists fema|done..].
  - intros [(fema & -> & ->) [Hs _]]. right. split; [done|]. left.
    right. right. left. by exists fema.
Qed.

End whole_page.

Lemma missing_required_file_stops_witness :
  ((None : option (list CountyRow)) = None ∨ Some [chelan_feature] = None) ∧
  main (sorter := merge_sorter) None (Some [chelan_feature]) (Some sample_fema)
       sample_sidebar = [ErrorBox files_not_found].
Proof.
  split; [by left|].
  exact (proj1 (missing_required_file_stops (sorter := merge_sorter) None
                  (Some [chelan_feature]) (Some sample_fema) sample_sidebar)
           (or_introl eq_refl)).
Defined.

Lemma sidebar_info_counts_witness :
  SidebarInfo 1 2 ∈ dashboard (sorter := merge_sorter) [chelan; king] []
                      None populous_sidebar ∧
  (1 ≤ 2)%nat.
Proof.
  assert (SidebarInfo 1 2 ∈ dashboard (sorter := merge_sorter) [chelan; king] []
                              None populous_sidebar) as Hin by in_list.
  split; [exact Hin|].
  exact (proj2 (proj2 (sidebar_info_counts (sorter := merge_sorter)
                         [chelan; king] [] None populous_sidebar 1 2 Hin))).
Defined.

(** ** Caption and colour scheme *)

(** X22: the warming caption, the red colour scheme and the opacity 0.8
    go together: each is chosen exactly when the selected trend is
    "Warming & Drying", whatever the selected category. *)
Theorem warming_caption_iff_reds (sb : Sidebar) :
  (caption sb = warming_caption ↔ selected_trend sb = "Warming & Drying") ∧
  (color_scheme sb = "Reds" ↔ selected_trend sb = "Warming & Drying") ∧
  (fill_opacity sb = Qmake 8 10 ↔ selected_trend sb = "Warming & Drying").
Proof.
  unfold caption, color_scheme, fill_opacity, color_style, warming_caption.
  destruct (decide (selected_trend sb = "Warming & Drying")) as [Hw|Hw].
  - rewrite decide_False by (rewrite Hw; by intros [[=] _]).
    by split_and!.
  - split_and!; (split; [|done]); intros Heq; exfalso; revert Heq;
      repeat destruct (decide _); simpl; discriminate.
Qed.

(** ** The sidebar option lists *)

#[global] Instance str_le_total : Total str_le.
Proof. intros a b. apply String.leb_total. Qed.

Lemma column_options {A} (f : A → string) (l : list A) :
  let options := "All" :: sorted (unique (f <$> l)) in
  head options = Some "All" ∧
  (∀ v, v ∈ options ↔ v = "All" ∨ ∃ r, r ∈ l ∧ f r = v) ∧
  NoDup (tail options) ∧
  Sorted str_le (tail options).
Proof.
  simpl. unfold sorted. split_and!.
  - done.
  - intros v. rewrite elem_of_cons, merge_sort_Permutation, elem_of_unique.
    rewrite list_elem_of_fmap. split; (intros [?|(r & ? & ?)]; [by left|right]);
      by exists r.
  - rewrite merge_sort_Permutation. apply NoDup_unique.
  - apply Sorted_merge_sort, _.
Qed.

(** X23: each selector offers "All" first and then, without
    repetition, exactly the values that occur in the column of the
    county table; when these values are ASCII text they come in
    ascending order. *)
Theorem sidebar_options (df : list CountyRow) :
  (head (risk_categories df) = Some "All" ∧
   (∀ v, v ∈ risk_categories df ↔
         v = "All" ∨ ∃ r, r ∈ df ∧ risk_category r = v) ∧
   NoDup (tail (risk_categories df)) ∧
   (Forall ascii_only (risk_category <$> df) →
    Sorted (λ a b, String.leb a b = true) (tail (risk_categories df)))) ∧
  (head (climate_trends df) = Some "All" ∧
   (∀ v, v ∈ climate_trends df ↔
         v = "All" ∨ ∃ r, r ∈ df ∧ climate_trend r = v) ∧
   NoDup (tail (climate_trends df)) ∧
   (Forall ascii_only (climate_trend <$> df) →
    Sorted (λ a b, String.leb a b = true) (tail (climate_trends df)))).
Proof.
  split.
  - destruct (column_options risk_category df) as (? & ? & ? & ?).
    by split_and!.
  - destruct (column_options climate_trend df) as (? & ? & ? & ?).
    by split_and!.
Qed.

Lemma sidebar_options_witness :
  Forall ascii_only (risk_category <$> [chelan; king]) ∧
  Sorted (λ a b, String.leb a b = true) (tail (risk_categories [chelan; king])).
Proof.
  assert (Forall ascii_only (risk_category <$> [chelan; king])) as Hascii.
  { repeat constructor; unfold ascii_only; simpl;
      repeat constructor; vm_compute; lia. }
  split; [exact Hascii|].
  exact (proj2 (proj2 (proj2 (proj1 (sidebar_options [chelan; king])))) Hascii).
Defined.

(** X24: choosing an offered risk category other than "All", with the
    trend left at "All" and a population floor no county falls below,
    never gives an empty result. *)
Theorem offered_category_nonempty (df : list CountyRow) (sb : Sidebar) :
  selected_risk sb ∈ risk_categories df →
  selected_risk sb ≠ "All" →
  selected_trend sb = "All" →
  Forall (λ r, min_population sb ≤ population r) df →
  filtered_df df sb ≠ [].
Proof.
  intros Hin Hsel Htrend Hpop.
  apply (proj1 (proj2 (column_options risk_category df))) in Hin
    as [?|(r & Hr & Hcat)]; [done|].
  assert (r ∈ filtered_df df sb) as Hres.
  { rewrite filtered_df_filter. apply list_elem_of_filter. split; [|done].
    unfold passes. rewrite Forall_forall in Hpop. split_and!; [done| |by apply Hpop].
    by rewrite Htrend. }
  intros Hempty. rewrite Hempty in Hres. by apply elem_of_nil in Hres.
Qed.

Lemma offered_category_nonempty_witness :
  (selected_risk (mkSidebar "High" "All" 0 true (2015, 2024))
     ∈ risk_categories [chelan; king] ∧
   selected_risk (mkSidebar "High" "All" 0 true (2015, 2024)) ≠ "All" ∧
   selected_trend (mkSidebar "High" "All" 0 true (2015, 2024)) = "All" ∧
   Forall (λ r, min_population (mkSidebar "High" "All" 0 true (2015, 2024))
                  ≤ population r) [chelan; king]) ∧
  filtered_df [chelan; king] (mkSidebar "High" "All" 0 true (2015, 2024)) ≠ [].
Proof.
  assert (selected_risk (mkSidebar "High" "All" 0 true (2015, 2024))
            ∈ risk_categories [chelan; king]) as Hin by in_list.
  assert (selected_risk (mkSidebar "High" "All" 0 true (2015, 2024)) ≠ "All")
    as Hsel by (simpl; discriminate).
  assert (Forall (λ r, min_population (mkSidebar "High" "All" 0 true (2015, 2024))
                         ≤ population r) [chelan; king]) as Hpop
    by (repeat constructor; simpl; lia).
  split; [by split_and!|].
  exact (offered_category_nonempty [chelan; king]
           (mkSidebar "High" "All" 0 true (2015, 2024)) Hin Hsel eq_refl Hpop).
Defined.

Example sample_options :
  risk_categories [chelan; king] = ["All"; "High"; "Low"] ∧
  climate_trends [chelan; king] = ["All"; "Stable"; "Warming & Drying"].
Proof. split; reflexivity. Qed.

(** ** One set of rows behind every output *)

Section shared_rows.
Context {sorter : Sorter}.

Lemma choropleth_inv df geojson fema_data sb (c : Choropleth) :
  ChoroplethLayer c ∈ build_map df geojson fema_data sb →
  data c = (λ r, (county_fips r, climate_fire_risk_score r))
             <$> filtered_df df sb.
Proof.
  rewrite build_map_shape, bind_county_popup, !elem_of_app.
  intros [Hin|[Hin|[Hin|Hin]]].
  - by apply list_elem_of_singleton in Hin as [= ->].
  - unfold add_fema_markers in Hin.
    destruct (show_fema_markers sb), fema_data;
      try (by apply elem_of_nil in Hin).
    by apply list_elem_of_singleton in Hin.
  - by apply list_elem_of_fmap in Hin as (? & ? & _).
  - by apply list_elem_of_singleton in Hin.
Qed.

(** X25: the download, the ranked table and the choropleth are fed from
    the same filtered rows: the downloaded rows are the filter result,
    the table lists their county names in the same order, and the
    choropleth gets their codes and scores in the same order. *)
Theorem outputs_share_rows (df : list CountyRow) (geojson : list Feature)
    (fema_data : option (list DisasterRow)) (sb : Sidebar)
    (csv : list CountyRow) (table : DisplayDf) (c : Choropleth) :
  DownloadButton csv ∈ dashboard df geojson fema_data sb →
  Dataframe table ∈ dashboard df geojson fema_data sb →
  ChoroplethLayer c ∈ build_map df geojson fema_data sb →
  csv = filtered_df df sb ∧
  dr_County <$> rows table = County <$> csv ∧
  (data c).*1 = county_fips <$> csv ∧
  (data c).*2 = climate_fire_risk_score <$> csv.
Proof.
  intros Hcsv Htable Hc.
  assert (csv = filtered_df df sb) as ->.
  { apply elem_of_dashboard in Hcsv as [[_ ?]|[_ [Hin|Hin]]]; [done| |].
    - apply elem_of_upper_page in Hin
        as [?|[([label value] & _ & ?)|[(? & ? & ?)|[?|[?|?]]]]]; done.
    - apply elem_of_lower_page in Hin as [[_ ?]|[_ [?|[?|?]]]]; try done.
      by simplify_eq. }
  assert (table = display_df (filtered_df df sb) fema_data) as ->.
  { apply elem_of_dashboard in Htable as [[_ ?]|[_ [Hin|Hin]]]; [done| |].
    - apply elem_of_upper_page in Hin
        as [?|[([label value] & _ & ?)|[(? & ? & ?)|[?|[?|?]]]]]; done.
    - apply elem_of_lower_page in Hin as [[_ ?]|[_ [?|[?|?]]]]; try done.
      by simplify_eq. }
  rewrite (choropleth_inv _ _ _ _ _ Hc), <-!list_fmap_compose.
  split_and!; [done| |done..].
  rewrite <-(imap_const County).
  destruct fema_data; simpl; rewrite fmap_imap; by apply imap_ext.
Qed.

End shared_rows.

Lemma outputs_share_rows_witness :
  let page := dashboard (sorter := merge_sorter) [chelan; king] [chelan_feature]
                        None populous_sidebar in
  let c := {| geo_data := [chelan_feature]; data := [(53033, Qmake 30 1)];
              key_on := "feature.properties.GEOID"; fill_color := "YlOrRd";
              ch_fill_opacity := Qmake 7 10; nan_fill_color := "lightgray" |} in
  (DownloadButton [king] ∈ page ∧
   Dataframe (display_df [king] None) ∈ page ∧
   ChoroplethLayer c ∈ build_map (sorter := merge_sorter) [chelan; king]
                         [chelan_feature] None populous_sidebar) ∧
  [king] = filtered_df [chelan; king] populous_sidebar.
Proof.
  intros page c.
  assert (DownloadButton [king] ∈ page) as Hcsv by in_list.
  assert (Dataframe (display_df [king] None) ∈ page) as Htable by in_list.
  assert (ChoroplethLayer c ∈ build_map (sorter := merge_sorter) [chelan; king]
                                [chelan_feature] None populous_sidebar)
    as Hc by in_list.
  split; [by split_and!|].
  exact (proj1 (outputs_share_rows (sorter := merge_sorter) [chelan; king]
                  [chelan_feature] None populous_sidebar [king]
                  (display_df [king] None) c Hcsv Htable Hc)).
Defined.
